(** * S-box cryptographic analysis: ingestion front end and metrics engine

    The development embeds [src/sbox/main.py] (the Streamlit entry point:
    upload, size adjustment, 16x16 display, selected metrics, export) and
    the metrics engine it imports from [utils/], whose sources are not part
    of the tree and which is therefore modelled from the specification. *)

From Stdlib Require Import ZArith QArith Qabs Qround Ascii Lia.
From stdpp Require Import gmap strings pretty list fin_maps.

Open Scope Z_scope.

(** ** Results of fallible computations (Python: return or raise) *)

Inductive result (E A : Type) : Type :=
| Ok (a : A)
| Raise (e : E).
Arguments Ok {E A} a.
Arguments Raise {E A} e.

Definition is_ok {E A} (r : result E A) : bool :=
  match r with Ok _ => true | Raise _ => false end.

(** An S-box as the code has it: a Python list of integers. *)
Abbreviation table := (list Z).

(** ** Bit algebra (spec 4.1) *)
Module BitAlgebra.

Fixpoint popcount_pos (p : positive) : Z :=
  match p with
  | xH => 1
  | xO q => popcount_pos q
  | xI q => 1 + popcount_pos q
  end.

(** Modelled from the spec: [popcount(x)], the number of set bits of an
    in-range (non-negative) integer. *)
Definition popcount (x : Z) : Z :=
  match x with
  | Zpos p => popcount_pos p
  | _ => 0
  end.

(** Modelled from the spec: [bitDot(a, b)], the parity of
    [popcount(a AND b)]. *)
Definition bitDot (a b : Z) : Z := popcount (Z.land a b) mod 2.

(** Modelled from the spec: [getBit(x, i)], bit [i] of [x], 0-indexed
    from the least significant bit. *)
Definition getBit (x i : Z) : Z := if Z.testbit x i then 1 else 0.

End BitAlgebra.

(** ** The metrics engine (spec 3, 4 and 7) *)
Module Engine.
Import BitAlgebra.

(** Modelled from the spec: the error taxonomy of section 7. *)
Inductive error : Type :=
| InvalidTableLength
| ValueOutOfRange.

(** Modelled from the spec: one scalar per analysis, a float for a
    probability (kept as the exact rational it denotes) or an integer. *)
Inductive value : Type :=
| VFloat (q : Q)
| VInt (z : Z).

Inductive analysis : Type :=
| LAP | NL | SAC | DAP | BIC_SAC | BIC_NL.

(** [0, 1, ..., k-1] and [1, ..., k-1] as the loops enumerate them. *)
Definition range (k : nat) : list Z := Z.of_nat <$> seq 0 k.
Definition range1 (k : nat) : list Z := Z.of_nat <$> seq 1 (k - 1).

Definition sumZ (l : list Z) : Z := foldr Z.add 0 l.
Definition maxZ (l : list Z) : Z := foldr Z.max 0 l.
Definition minZ (d : Z) (l : list Z) : Z :=
  match l with
  | [] => d
  | x :: r => foldr Z.min x r
  end.
Definition count (P : Z -> bool) (l : list Z) : Z :=
  Z.of_nat (length (filter (fun x => Is_true (P x)) l)).

(** [S(x)]: the table entry at index [x]. *)
Definition S (t : table) (x : Z) : Z := default 0 (t !! Z.to_nat x).

Definition sign (e : Z) : Z := if e =? 0 then 1 else -1.

Section Width.
(** The bit widths [n] the engine is built for (canonically only 8). *)
Variable supported : nat -> bool.

(** Modelled from the spec: the width [n] of a table of [len] entries,
    when [len] is a supported power of two [2^n]. *)
Definition width_of (len : nat) : option nat :=
  let n := Z.to_nat (Z.log2 (Z.of_nat len)) in
  if supported n && (1 <=? n)%nat && (2 ^ Z.of_nat n =? Z.of_nat len)
  then Some n else None.

Definition in_range (n : nat) (v : Z) : bool :=
  (0 <=? v) && (v <? 2 ^ Z.of_nat n).

(** Modelled from the spec: validation at entry to an analysis (section
    7): first the length, then every entry against [0, N-1]. *)
Definition validate (t : table) : result error nat :=
  match width_of (length t) with
  | None => Raise InvalidTableLength
  | Some n =>
      if forallb (in_range n) t then Ok n else Raise ValueOutOfRange
  end.
End Width.

Section Metrics.
(** [n] input/output bits, [N = 2^n] entries. *)
Variable n : nat.
Variable t : table.

Definition N : nat := (2 ^ n)%nat.

(** Modelled from the spec (4.2):
    [W(a,b) = sum_x (-1)^(bitDot(b,S(x)) XOR bitDot(a,x))]. *)
Definition W (a b : Z) : Z :=
  sumZ ((fun x => sign (Z.lxor (bitDot b (S t x)) (bitDot a x)))
          <$> range N).

(** The maximum of [|W(a,b)|] over [a] in [0,N-1], [b] in [1,N-1]. *)
Definition max_abs_walsh : Z :=
  maxZ (a ← range N; (fun b => Z.abs (W a b)) <$> range1 N).

Definition lap : Q := inject_Z max_abs_walsh / inject_Z (Z.of_nat N).

Definition nonlinearity : Z :=
  2 ^ (Z.of_nat n - 1) - max_abs_walsh / 2.

(** Modelled from the spec (4.3): [DDT[dx][dy]]. *)
Definition DDT (dx dy : Z) : Z :=
  count (fun x => Z.lxor (S t x) (S t (Z.lxor x dx)) =? dy) (range N).

Definition max_ddt : Z :=
  maxZ (dx ← range1 N; (fun dy => DDT dx dy) <$> range N).

Definition dap : Q := inject_Z max_ddt / inject_Z (Z.of_nat N).

(** Modelled from the spec (4.4): the number of inputs for which
    flipping input bit [i] changes output bit [j]; [flipRate] is this
    count over [N]. *)
Definition flips (i j : Z) : Z :=
  count (fun x => negb (getBit (S t x) j
                        =? getBit (S t (Z.lxor x (Z.shiftl 1 i))) j))
        (range N).

Definition flipRate (i j : Z) : Q :=
  inject_Z (flips i j) / inject_Z (Z.of_nat N).

Definition sumQ (l : list Q) : Q := foldr Qplus 0%Q l.

(** The overall average of [flipRate] over all pairs [(i, j)]. *)
Definition sac : Q :=
  sumQ (i ← range n; (fun j => flipRate i j) <$> range n)
  / inject_Z (Z.of_nat (n * n)).

(** Modelled from the spec (4.5): the change indicator of output bit
    [j] when input bit [i] of [x] is flipped. *)
Definition Delta (j x i : Z) : Z :=
  Z.lxor (getBit (S t x) j) (getBit (S t (Z.lxor x (Z.shiftl 1 i))) j).

Definition corr (i j k : Z) : Q :=
  inject_Z (count (fun x => Delta j x i =? Delta k x i) (range N))
  / inject_Z (Z.of_nat N) * 2 - 1.

(** Unordered pairs [(j, k)] of output bit positions, [j < k]. *)
Definition bit_pairs : list (Z * Z) :=
  j ← range n; (fun k => (j, k)) <$> filter (fun k => j < k) (range n).

Definition bic_sac : Q :=
  let cs := i ← range n; (fun jk => Qabs (corr i jk.1 jk.2)) <$> bit_pairs in
  sumQ cs / inject_Z (Z.of_nat (length cs)).

(** Walsh value of the combined bit [f_jk(x) = getBit(S(x),j) XOR
    getBit(S(x),k)] against the input mask [a]. *)
Definition W_pair (j k a : Z) : Z :=
  sumZ ((fun x => sign (Z.lxor (Z.lxor (getBit (S t x) j)
                                       (getBit (S t x) k))
                               (bitDot a x)))
          <$> range N).

Definition nl_pair (j k : Z) : Z :=
  2 ^ (Z.of_nat n - 1)
  - maxZ ((fun a => Z.abs (W_pair j k a)) <$> range N) / 2.

Definition bic_nl : Z :=
  minZ 0 ((fun jk => nl_pair jk.1 jk.2) <$> bit_pairs).

Definition compute (an : analysis) : value :=
  match an with
  | LAP => VFloat lap
  | NL => VInt nonlinearity
  | SAC => VFloat sac
  | DAP => VFloat dap
  | BIC_SAC => VFloat bic_sac
  | BIC_NL => VInt bic_nl
  end.
End Metrics.

(** Modelled from the spec: an analysis validates its table at entry and
    only then computes (section 7). *)
Definition checked {A} (supported : nat -> bool) (f : nat -> table -> A)
           (t : table) : result error A :=
  match validate supported t with
  | Raise e => Raise e
  | Ok n => Ok (f n t)
  end.

Definition analyse (supported : nat -> bool) (an : analysis) (t : table)
  : result error value :=
  checked supported (fun n t => compute n t an) t.

(** The canonical engine: 8-bit tables only. *)
Definition byte_only (n : nat) : bool := (n =? 8)%nat.

Definition identity_table : table := range 256.

End Engine.

(** ** Python values and formatting used by [main] *)
Module Py.

(** A raised exception: its class and its message ([str(e)]). *)
Record exception : Type := Exception { exn_class : string; exn_msg : string }.

Definition str_exn (e : exception) : string := exn_msg e.

(** What [st.session_state.sbox] can hold. *)
Inductive pyobj : Type :=
| PyNone
| PyList (l : table).

(** [str(z)] and [f'{z}'] for an integer. *)
Definition str_int (z : Z) : string := pretty z.

(** [s.endswith(suffix)]. *)
Definition endswith (s suffix : string) : bool :=
  let n := String.length s in
  let m := String.length suffix in
  bool_decide (m ≤ n)%nat
  && bool_decide (String.substring (n - m) m s = suffix).

(** Rounding to the nearest integer, ties to even, as float formatting
    rounds the exact value of the float. *)
Definition round_half_even (q : Q) : Z :=
  let fl := Qfloor q in
  match Qcompare (q - inject_Z fl) (1 # 2) with
  | Lt => fl
  | Gt => fl + 1
  | Eq => if Z.even fl then fl else fl + 1
  end.

(** The [d] low decimal digits of [z], most significant first. *)
Fixpoint digits (d : nat) (z : Z) : string :=
  match d with
  | O => ""
  | Datatypes.S d' =>
      digits d' (z / 10) +:+ String (pretty_N_char (Z.to_N (z mod 10))) ""
  end.

(** [f'{q:.df}']: fixed-point notation with [d] digits after the point. *)
Definition format_fixed (d : nat) (q : Q) : string :=
  let scaled := round_half_even (Qabs q * inject_Z (10 ^ Z.of_nat d)) in
  let sgn := if Qlt_le_dec q 0 then "-" else "" in
  let int_part := str_int (scaled / 10 ^ Z.of_nat d) in
  match d with
  | O => sgn +:+ int_part
  | _ => sgn +:+ int_part +:+ "." +:+ digits d (scaled mod 10 ^ Z.of_nat d)
  end.

(** The text after the first ["."] of [s], when there is one. *)
Fixpoint after_point (s : string) : option string :=
  match s with
  | EmptyString => None
  | String c r => if Ascii.eqb c "."%char then Some r else after_point r
  end.

Definition is_digit (c : ascii) : bool :=
  bool_decide (48 ≤ nat_of_ascii c ≤ 57)%nat.

Fixpoint all_digits (s : string) : bool :=
  match s with
  | EmptyString => true
  | String c r => is_digit c && all_digits r
  end.

(** [Some d] when [s] shows exactly [d] decimal digits after its point. *)
Definition decimals (s : string) : option nat :=
  match after_point s with
  | Some r => if all_digits r then Some (String.length r) else None
  | None => None
  end.

(** Rows of [cols] consecutive entries: [numpy.reshape] in row-major
    (C) order. *)
Fixpoint chunks (rows cols : nat) (l : table) : list table :=
  match rows with
  | O => []
  | Datatypes.S r => take cols l :: chunks r cols (drop cols l)
  end.

(** [np.array(l).reshape(rows, cols)], a [ValueError] when the sizes do
    not match. *)
Definition reshape (rows cols : nat) (l : table)
  : result exception (list table) :=
  if decide (length l = rows * cols)%nat
  then Ok (chunks rows cols l)
  else Raise (Exception "ValueError"
                ("cannot reshape array of size " +:+ pretty (length l)
                 +:+ " into shape (" +:+ pretty rows +:+ ","
                 +:+ pretty cols +:+ ")")).

(** [pd.DataFrame(l)]: one column, one row per entry. *)
Definition DataFrame_of_list (l : table) : list table := (fun v => [v]) <$> l.

End Py.

(** ** The Streamlit page: [main] of [src/sbox/main.py] *)
Module App.
Import Py.

(** What the page renders, in order. *)
Inductive event : Type :=
| st_title (body : string)
| st_sidebar_header (body : string)
| st_sidebar_file_uploader (label : string) (types : list string)
| st_sidebar_multiselect (label : string) (options default : list string)
                         (key : string)
| st_error (body : string)
| st_warning (body : string)
| st_info (body : string)
| st_subheader (body : string)
| st_table (grid : list table) (columns index : list string)
| st_metric (label value : string)
| st_download_button (label : string) (data : list table)
                     (file_name mime : string).

(** The state a run of the page works on: Streamlit's session state, the
    elements rendered so far, and the calls made into [utils] (function
    name and the list passed).  [session_state] holds the entries that the
    statements of [main] read or write; the entry Streamlit keeps on its
    own for the keyed multiselect is not part of it. *)
Record world : Type := World {
  session_state : gmap string pyobj;
  ui : list event;
  calls : list (string * table)
}.

(** A statement either completes or raises, and changes the world either
    way. *)
Definition M (A : Type) : Type := world -> result exception A * world.

#[global] Instance M_ret : MRet M := fun A a w => (Ok a, w).
#[global] Instance M_bind : MBind M := fun A B f m w =>
  match m w with
  | (Ok a, w') => f a w'
  | (Raise e, w') => (Raise e, w')
  end.

Definition lift {A} (r : result exception A) : M A := fun w => (r, w).

Definition emit (e : event) : M unit := fun w =>
  (Ok tt, World (session_state w) (ui w ++ [e]) (calls w)).

Definition set_session (key : string) (v : pyobj) : M unit := fun w =>
  (Ok tt, World (<[key := v]> (session_state w)) (ui w) (calls w)).

Definition get_session : M (gmap string pyobj) := fun w =>
  (Ok (session_state w), w).

(** A call into [utils]: noted, then run on the list it is given. *)
Definition call {A} (name : string) (f : table -> result exception A)
           (arg : table) : M A := fun w =>
  (f arg, World (session_state w) (ui w) (calls w ++ [(name, arg)])).

Definition when (b : bool) (m : M unit) : M unit :=
  if b then m else mret tt.

(** [try: body except Exception as e: handler(e)]. *)
Definition try_except {A} (body : M A) (handler : exception -> M A) : M A :=
  fun w =>
    match body w with
    | (Ok a, w') => (Ok a, w')
    | (Raise e, w') => handler e w'
    end.

(** The file handed over by the upload widget. *)
Record uploaded_file : Type := UploadedFile { name : string; content : string }.

(** pandas, as far as [main] uses it: the two readers, and
    [df.values.flatten().astype(int).tolist()]. *)
Class Pandas : Type := {
  dataframe : Type;
  read_csv : uploaded_file -> result exception dataframe;
  read_excel : uploaded_file -> result exception dataframe;
  flatten_astype_int_tolist : dataframe -> result exception table
}.

(** The six analyses imported from [utils], which the tree does not
    contain.  Modelled from the spec: each is a read-only function of the
    table it is given (section 5) that returns its scalar or raises. *)
Class Utils : Type := {
  linear_approximation_probability : table -> result exception Q;
  compute_nonlinearity : table -> result exception Z;
  strict_avalanche_criterion : table -> result exception Q;
  calculate_dap : table -> result exception Q;
  calculate_bic_sac : table -> result exception Q;
  calculate_bic_nl : table -> result exception Z
}.

Definition LAP_label : string := "Linear Approximation Probability (LAP)".
Definition NL_label : string := "Nonlinearity".
Definition SAC_label : string := "Strict Avalanche Criterion (SAC)".
Definition DAP_label : string := "Differential Approximation Probability (DAP)".
Definition BIC_SAC_label : string := "Bit Independence Criterion - SAC (BIC-SAC)".
Definition BIC_NL_label : string := "Bit Independence Criterion - Nonlinearity (BIC-NL)".

Definition metric_labels : list string :=
  [LAP_label; NL_label; SAC_label; DAP_label; BIC_SAC_label; BIC_NL_label].

(** [[f'{i}' for i in range(16)]]. *)
Definition grid_labels : list string := (fun i => pretty i) <$> seq 0 16.

Section Main.
Context `{Pandas} `{Utils}.

(** Lines 59-64: validate and adjust the S-box size. *)
Definition adjust (sbox : table) : table :=
  if decide (length sbox < 256)%nat
  then sbox ++ replicate (256 - length sbox) 0
  else if decide (256 < length sbox)%nat
       then take 256 sbox
       else sbox.

Definition adjust_size (sbox : table) : M table :=
  if decide (length sbox < 256)%nat then
    emit (st_warning ("S-box size is " +:+ pretty (length sbox)
                      +:+ ". Padding to 256 elements."));;
    mret (sbox ++ replicate (256 - length sbox) 0)
  else if decide (256 < length sbox)%nat then
    emit (st_warning ("S-box size is " +:+ pretty (length sbox)
                      +:+ ". Truncating to 256 elements."));;
    mret (take 256 sbox)
  else mret sbox.

(** Lines 69-76: the 16x16 grid. *)
Definition display (sbox : table) : M unit :=
  emit (st_subheader "Imported S-box");;
  sbox_grid ← lift (reshape 16 16 sbox);
  emit (st_table sbox_grid grid_labels grid_labels).

(** Lines 78-109: the selected evaluations. *)
Definition evaluate (evaluation_options : list string) (sbox : table)
  : M unit :=
  emit (st_subheader "S-box Cryptographic Evaluation");;
  when (bool_decide (LAP_label ∈ evaluation_options))
    (lap_value ← call "linear_approximation_probability"
                      linear_approximation_probability sbox;
     emit (st_metric LAP_label (format_fixed 6 lap_value)));;
  when (bool_decide (NL_label ∈ evaluation_options))
    (nonlinearity ← call "compute_nonlinearity" compute_nonlinearity sbox;
     emit (st_metric NL_label (str_int nonlinearity)));;
  when (bool_decide (SAC_label ∈ evaluation_options))
    (sac_value ← call "strict_avalanche_criterion"
                      strict_avalanche_criterion sbox;
     emit (st_metric SAC_label (format_fixed 10 sac_value)));;
  when (bool_decide (DAP_label ∈ evaluation_options))
    (dap_value ← call "calculate_dap" calculate_dap sbox;
     emit (st_metric DAP_label (format_fixed 10 dap_value)));;
  when (bool_decide (BIC_SAC_label ∈ evaluation_options))
    (bic_sac_value ← call "calculate_bic_sac" calculate_bic_sac sbox;
     emit (st_metric BIC_SAC_label (format_fixed 10 bic_sac_value)));;
  when (bool_decide (BIC_NL_label ∈ evaluation_options))
    (bic_nl_value ← call "calculate_bic_nl" calculate_bic_nl sbox;
     emit (st_metric BIC_NL_label (str_int bic_nl_value))).

(** Lines 111-122: the export. *)
Definition export (sbox : table) : M unit :=
  emit (st_download_button "Download S-box as Excel"
          (DataFrame_of_list sbox) "sbox_data.xlsx"
          "application/vnd.openxmlformats-officedocument.spreadsheetml.sheet").

(** Lines 55-122: from the data frame to the download button. *)
Definition process (evaluation_options : list string) (df : dataframe)
  : M unit :=
  sbox ← lift (flatten_astype_int_tolist df);
  sbox ← adjust_size sbox;
  set_session "sbox" (PyList sbox);;
  display sbox;;
  evaluate evaluation_options sbox;;
  export sbox.

(** Lines 44-128: the [try] block and its handler. *)
Definition handle_upload (uploaded : option uploaded_file)
           (evaluation_options : list string) : M unit :=
  try_except
    (match uploaded with
     | Some f =>
         if endswith (name f) ".csv" then
           df ← lift (read_csv f); process evaluation_options df
         else if endswith (name f) ".xls" || endswith (name f) ".xlsx" then
           df ← lift (read_excel f); process evaluation_options df
         else
           emit (st_error "Invalid file type. Please upload a CSV or Excel file.")
     | None => emit (st_info "Please upload an S-box file to continue.")
     end)
    (fun e => emit (st_error ("Error processing file: " +:+ str_exn e))).

(** [main()]: [uploaded] and [evaluation_options] are what the two
    sidebar widgets return in this run. *)
Definition main (uploaded : option uploaded_file)
           (evaluation_options : list string) : M unit :=
  emit (st_title "Advanced S-box Cryptographic Analysis");;
  emit (st_sidebar_header "Import S-box");;
  emit (st_sidebar_file_uploader "Choose an Excel/CSV file"
          ["xlsx"; "xls"; "csv"]);;
  emit (st_sidebar_multiselect "Select Evaluation Metrics" metric_labels
          [LAP_label] "main_evaluation_metrics");;
  ss ← get_session;
  when (bool_decide (ss !! "sbox" = None)) (set_session "sbox" PyNone);;
  handle_upload uploaded evaluation_options.

(** The table a file parses to, when reading and conversion succeed. *)
Definition parse (f : uploaded_file) : option (result exception table) :=
  if endswith (name f) ".csv" then
    Some (match read_csv f with
          | Ok df => flatten_astype_int_tolist df
          | Raise e => Raise e
          end)
  else if endswith (name f) ".xls" || endswith (name f) ".xlsx" then
    Some (match read_excel f with
          | Ok df => flatten_astype_int_tolist df
          | Raise e => Raise e
          end)
  else None.
End Main.

(** A run of the page starts on an empty page with the session state
    left by the previous run. *)
Definition start (ss : gmap string pyobj) : world := World ss [] [].

(** ** The page as a function of its inputs

    The six guarded blocks of [evaluate] share one shape: a label, the
    function called, and how its value is shown. *)
Record metric : Type := Metric {
  m_label : string;
  m_name : string;
  m_run : table -> result exception string
}.

Definition shown {A} (fmt : A -> string) (f : table -> result exception A)
           (t : table) : result exception string :=
  match f t with
  | Ok v => Ok (fmt v)
  | Raise e => Raise e
  end.

(** The metrics on a page, as label and shown value, in order. *)
Definition shown_metrics (page : list event) : list (string * string) :=
  omap (fun e => match e with
                 | st_metric l v => Some (l, v)
                 | _ => None
                 end) page.

Section Outcome.
Context `{Pandas} `{Utils}.

Definition metrics : list metric :=
  [ Metric LAP_label "linear_approximation_probability"
      (shown (format_fixed 6) linear_approximation_probability);
    Metric NL_label "compute_nonlinearity"
      (shown str_int compute_nonlinearity);
    Metric SAC_label "strict_avalanche_criterion"
      (shown (format_fixed 10) strict_avalanche_criterion);
    Metric DAP_label "calculate_dap"
      (shown (format_fixed 10) calculate_dap);
    Metric BIC_SAC_label "calculate_bic_sac"
      (shown (format_fixed 10) calculate_bic_sac);
    Metric BIC_NL_label "calculate_bic_nl"
      (shown str_int calculate_bic_nl) ].

Definition selected (evaluation_options : list string) : list metric :=
  filter (fun m => m_label m ∈ evaluation_options) metrics.

(** Running the blocks of [ms] in order on [sbox]: the calls made, the
    metrics shown, and the exception that stopped the run, if any. *)
Fixpoint run_metrics (ms : list metric) (sbox : table)
  : list (string * table) * list event * option exception :=
  match ms with
  | [] => ([], [], None)
  | m :: rest =>
      match m_run m sbox with
      | Ok v =>
          let '(cs, us, e) := run_metrics rest sbox in
          ((m_name m, sbox) :: cs, st_metric (m_label m) v :: us, e)
      | Raise e => ([(m_name m, sbox)], [], Some e)
      end
  end.

Definition size_warning (raw : table) : list event :=
  if decide (length raw < 256)%nat then
    [st_warning ("S-box size is " +:+ pretty (length raw)
                 +:+ ". Padding to 256 elements.")]
  else if decide (256 < length raw)%nat then
    [st_warning ("S-box size is " +:+ pretty (length raw)
                 +:+ ". Truncating to 256 elements.")]
  else [].

Definition reported (e : exception) : event :=
  st_error ("Error processing file: " +:+ str_exn e).

Definition download (sbox : table) : event :=
  st_download_button "Download S-box as Excel"
    (DataFrame_of_list sbox) "sbox_data.xlsx"
    "application/vnd.openxmlformats-officedocument.spreadsheetml.sheet".

(** The S-box a run stores in the session state, if it gets that far. *)
Definition stored (uploaded : option uploaded_file) : option table :=
  match uploaded with
  | Some f =>
      match parse f with
      | Some (Ok raw) => Some (adjust raw)
      | _ => None
      end
  | None => None
  end.

(** What [handle_upload] renders. *)
Definition page (uploaded : option uploaded_file)
           (evaluation_options : list string) : list event :=
  match uploaded with
  | None => [st_info "Please upload an S-box file to continue."]
  | Some f =>
      match parse f with
      | None =>
          [st_error "Invalid file type. Please upload a CSV or Excel file."]
      | Some (Raise e) => [reported e]
      | Some (Ok raw) =>
          let sbox := adjust raw in
          let '(_, us, e) := run_metrics (selected evaluation_options) sbox in
          size_warning raw
          ++ [st_subheader "Imported S-box";
              st_table (chunks 16 16 sbox) grid_labels grid_labels;
              st_subheader "S-box Cryptographic Evaluation"]
          ++ us
          ++ [match e with
              | None => download sbox
              | Some e => reported e
              end]
      end
  end.

(** The calls [handle_upload] makes into [utils]. *)
Definition called (uploaded : option uploaded_file)
           (evaluation_options : list string) : list (string * table) :=
  match stored uploaded with
  | Some sbox => (run_metrics (selected evaluation_options) sbox).1.1
  | None => []
  end.

Definition store (o : option table) (ss : gmap string pyobj)
  : gmap string pyobj :=
  match o with
  | Some sbox => <["sbox" := PyList sbox]> ss
  | None => ss
  end.

(** One guarded block of [evaluate], and the blocks of [ms] in order. *)
Definition block (evaluation_options : list string) (sbox : table)
           (m : metric) : M unit :=
  when (bool_decide (m_label m ∈ evaluation_options))
    (v ← call (m_name m) (m_run m) sbox; emit (st_metric (m_label m) v)).

Definition blocks (evaluation_options : list string) (sbox : table)
           (ms : list metric) : M unit :=
  foldr (fun m k => block evaluation_options sbox m ;; k) (mret tt) ms.

Definition finish (o : list (string * table) * list event * option exception)
           (w : world) : result exception unit * world :=
  (match o.2 with None => Ok tt | Some e => Raise e end,
   World (session_state w) (ui w ++ o.1.2) (calls w ++ o.1.1)).

(** Lines 41-42. *)
Definition init_session (ss : gmap string pyobj) : gmap string pyobj :=
  if bool_decide (ss !! "sbox" = None) then <["sbox" := PyNone]> ss else ss.

Definition header : list event :=
  [st_title "Advanced S-box Cryptographic Analysis";
   st_sidebar_header "Import S-box";
   st_sidebar_file_uploader "Choose an Excel/CSV file" ["xlsx"; "xls"; "csv"];
   st_sidebar_multiselect "Select Evaluation Metrics" metric_labels
     [LAP_label] "main_evaluation_metrics"].
End Outcome.

(** How an engine error reaches [main]: as a raised exception. *)
Definition to_exception (e : Engine.error) : exception :=
  match e with
  | Engine.InvalidTableLength =>
      Exception "InvalidTableLength" "length not a supported power-of-two size"
  | Engine.ValueOutOfRange =>
      Exception "ValueOutOfRange" "an entry >= N or negative"
  end.

Definition raising {A} (r : result Engine.error A) : result exception A :=
  match r with
  | Ok a => Ok a
  | Raise e => Raise (to_exception e)
  end.

(** The engine of the specification behind the six imported names. *)
Definition engine_utils (supported : nat -> bool) : Utils := {|
  linear_approximation_probability t :=
    raising (Engine.checked supported Engine.lap t);
  compute_nonlinearity t :=
    raising (Engine.checked supported Engine.nonlinearity t);
  strict_avalanche_criterion t :=
    raising (Engine.checked supported Engine.sac t);
  calculate_dap t :=
    raising (Engine.checked supported Engine.dap t);
  calculate_bic_sac t :=
    raising (Engine.checked supported Engine.bic_sac t);
  calculate_bic_nl t :=
    raising (Engine.checked supported Engine.bic_nl t)
|}.

(** A pandas whose readers yield a given outcome, whatever the bytes. *)
Definition reads_as (r : result exception table) : Pandas := {|
  dataframe := table;
  read_csv _ := r;
  read_excel _ := r;
  flatten_astype_int_tolist df := Ok df
|}.

End App.

(** ** Sample uploads *)
Module Sample.
Import Py App.

Definition csv_file : uploaded_file := UploadedFile "sbox.csv" "".

(** The first entries of a byte S-box, an over-long table, and a table
    with an entry that is no byte. *)
Definition short_table : table := [99; 124; 119].
Definition long_table : table := replicate 300 7.
Definition bad_table : table := [300].

Definition engine : Utils := engine_utils Engine.byte_only.

(** The session state a first visit without an upload leaves behind. *)
Definition visited : gmap string pyobj := {["sbox" := PyNone]}.
End Sample.

(** ** Successive runs of the page *)
Module Reruns.
Import Py App.

Section Runs.
Context `{Pandas} `{Utils}.

(** Streamlit runs [main] again on every interaction, on the session state
    the previous run left: the state after one more run with the given
    upload and selection. *)
Definition rerun (ss : gmap string pyobj)
           (input : option uploaded_file * list string) : gmap string pyobj :=
  session_state (main input.1 input.2 (start ss)).2.

Definition reruns (inputs : list (option uploaded_file * list string))
           (ss : gmap string pyobj) : gmap string pyobj :=
  foldl rerun ss inputs.
End Runs.

(** What [st.session_state.sbox] holds is [None] or a list of 256 entries. *)
Definition sbox_well_formed (ss : gmap string pyobj) : Prop :=
  match ss !! "sbox" with
  | Some (PyList l) => length l = 256%nat
  | _ => True
  end.

(** The bodies of the warnings on a page, in order. *)
Definition warnings (page : list event) : list string :=
  omap (fun e => match e with st_warning b => Some b | _ => None end) page.

(** A pandas whose readers yield a table chosen by the name of the file. *)
Definition reads_by (g : string -> result exception table) : Pandas := {|
  dataframe := table;
  read_csv f := g (name f);
  read_excel f := g (name f);
  flatten_astype_int_tolist df := Ok df
|}.

(** Analyses of which the second raises: the first returns a half, the
    others a quarter or 100. *)
Definition second_raises : Utils := {|
  linear_approximation_probability _ := Ok (1 # 2)%Q;
  compute_nonlinearity _ := Raise (Exception "ZeroDivisionError" "division by zero");
  strict_avalanche_criterion _ := Ok (1 # 4)%Q;
  calculate_dap _ := Ok (1 # 4)%Q;
  calculate_bic_sac _ := Ok (1 # 4)%Q;
  calculate_bic_nl _ := Ok 100
|}.

Definition xlsx_file : uploaded_file := UploadedFile "sbox_data.xlsx" "".
Definition txt_file : uploaded_file := UploadedFile "notes.txt" "".

(** The short sample table under the name of the sample CSV file, and its
    256-entry form under any other name. *)
Definition by_name (n : string) : result exception table :=
  if decide (n = "sbox.csv") then Ok Sample.short_table
  else Ok (adjust Sample.short_table).

(** What a reader followed by
    [df.values.flatten().astype(int).tolist()] yields for a file. *)
Definition read_table `{Pandas}
           (reader : uploaded_file -> result exception dataframe)
           (f : uploaded_file) : result exception table :=
  match reader f with
  | Ok df => flatten_astype_int_tolist df
  | Raise e => Raise e
  end.

(** A run that worked on the outcome [r] of reading: the table read is the
    one adjusted, stored and shown, or the exception read is the one
    reported, with no analysis called. *)
Definition landed (r : result exception table) (w : world) : Prop :=
  match r with
  | Ok raw =>
      session_state w !! "sbox" = Some (PyList (adjust raw))
      /\ st_table (chunks 16 16 (adjust raw)) grid_labels grid_labels ∈ ui w
  | Raise e => ui w = header ++ [reported e] /\ calls w = []
  end.

(** A pandas whose two readers yield different tables. *)
Definition two_readers : Pandas := {|
  dataframe := table;
  read_csv _ := Ok Sample.short_table;
  read_excel _ := Ok Sample.long_table;
  flatten_astype_int_tolist df := Ok df
|}.

(** A selection with a repetition and a string that is no metric label. *)
Definition untidy_selection : list string :=
  [NL_label; LAP_label; LAP_label; "Entropy"].
End Reruns.

(** * Properties *)

(** ** The engine *)
Section EngineFacts.
Import BitAlgebra Engine.

Lemma width_of_Some supported len n :
  width_of supported len = Some n ↔
  supported n = true ∧ (1 ≤ n)%nat ∧ len = (2 ^ n)%nat.
Proof.
  unfold width_of. split.
  - set (m := Z.to_nat (Z.log2 (Z.of_nat len))).
    destruct (supported m) eqn:Hs, (Nat.leb_spec 1 m) as [H1|H1],
      (Z.eqb_spec (2 ^ Z.of_nat m) (Z.of_nat len)) as [Hp|Hp];
      cbn [andb]; intros [= <-].
    split_and!; [done..|].
    apply Nat2Z.inj. by rewrite Nat2Z.inj_pow.
  - intros (Hs & H1 & ->).
    assert (Z.to_nat (Z.log2 (Z.of_nat (2 ^ n))) = n) as ->.
    { rewrite Nat2Z.inj_pow. change (Z.of_nat 2) with 2.
      rewrite Z.log2_pow2 by lia. lia. }
    rewrite Hs, Nat2Z.inj_pow. change (Z.of_nat 2) with 2.
    rewrite Z.eqb_refl.
    by destruct (Nat.leb_spec 1 n); [|lia].
Qed.

Lemma width_of_None supported len :
  width_of supported len = None ↔
  ¬ ∃ n, supported n = true ∧ (1 ≤ n)%nat ∧ len = (2 ^ n)%nat.
Proof.
  split.
  - intros Hw (n & Hn). apply width_of_Some in Hn. congruence.
  - intros Hn. destruct (width_of supported len) as [n|] eqn:Hw; [|done].
    destruct Hn. exists n. by apply width_of_Some.
Qed.

Lemma in_range_spec n v :
  in_range n v = true ↔ 0 ≤ v < 2 ^ Z.of_nat n.
Proof. unfold in_range. rewrite andb_true_iff, Z.leb_le, Z.ltb_lt. done. Qed.

Lemma validate_ok supported t n :
  validate supported t = Ok n ↔
  width_of supported (length t) = Some n ∧
  ∀ v, v ∈ t → 0 ≤ v < 2 ^ Z.of_nat n.
Proof.
  unfold validate. destruct (width_of _ _) as [m|]; [|split; [done|by intros [? _]]].
  destruct (forallb _ _) eqn:Hf.
  - rewrite forallb_forall in Hf. split.
    + intros [= ->]. split; [done|]. intros v Hv.
      apply in_range_spec, Hf. by apply list_elem_of_In.
    + by intros [[= ->] _].
  - split; [done|]. intros [[= ->] Hall].
    assert (forallb (in_range n) t = true); [|congruence].
    apply forallb_forall. intros v Hv.
    apply in_range_spec, Hall. by apply list_elem_of_In.
Qed.

Lemma validate_length supported t :
  (¬ ∃ n, supported n = true ∧ (1 ≤ n)%nat ∧ length t = (2 ^ n)%nat) →
  validate supported t = Raise InvalidTableLength.
Proof.
  intros Hn. apply width_of_None in Hn. unfold validate. by rewrite Hn.
Qed.

Lemma validate_range supported t n v :
  width_of supported (length t) = Some n →
  v ∈ t → v < 0 ∨ 2 ^ Z.of_nat n ≤ v →
  validate supported t = Raise ValueOutOfRange.
Proof.
  intros Hw Hv Hout. unfold validate. rewrite Hw.
  destruct (forallb _ _) eqn:Hf; [|done].
  rewrite forallb_forall in Hf.
  apply list_elem_of_In, Hf, in_range_spec in Hv. lia.
Qed.

(** C1. An analysis raises [InvalidTableLength] when the length of its
    table is not a supported power of two; when the length is a supported
    [N = 2^n] it raises [ValueOutOfRange] if some entry is negative or at
    least [N], and returns its value if every entry lies in [0, N-1]. *)
Theorem analyse_validates supported an t :
  ((¬ ∃ n, supported n = true ∧ (1 ≤ n)%nat ∧ length t = (2 ^ n)%nat) →
   analyse supported an t = Raise InvalidTableLength)
  ∧ (∀ n, supported n = true → (1 ≤ n)%nat → length t = (2 ^ n)%nat →
       ((∃ v, v ∈ t ∧ (v < 0 ∨ Z.of_nat (length t) ≤ v)) →
        analyse supported an t = Raise ValueOutOfRange)
       ∧ ((∀ v, v ∈ t → 0 ≤ v < Z.of_nat (length t)) →
          analyse supported an t = Ok (compute n t an))).
Proof.
  unfold analyse, checked. split.
  - intros Hn. by rewrite validate_length.
  - intros n Hs H1 Hlen.
    assert (width_of supported (length t) = Some n) as Hw
      by by apply width_of_Some.
    assert (Z.of_nat (length t) = 2 ^ Z.of_nat n) as HN
      by by rewrite Hlen, Nat2Z.inj_pow.
    split.
    + intros (v & Hv & Hout).
      rewrite (validate_range supported t n v); [done..|]. lia.
    + intros Hall.
      assert (validate supported t = Ok n) as ->; [|done].
      apply validate_ok. split; [done|]. intros v Hv.
      specialize (Hall v Hv). lia.
Qed.

(** *** Bounds on the enumerations *)

Lemma length_range k : length (range k) = k.
Proof. unfold range. by rewrite length_fmap, length_seq. Qed.

Lemma elem_of_range k x : x ∈ range k ↔ 0 ≤ x < Z.of_nat k.
Proof.
  unfold range. rewrite list_elem_of_fmap. split.
  - intros (i & -> & Hi). apply elem_of_seq in Hi. lia.
  - intros Hx. exists (Z.to_nat x). split; [lia|]. apply elem_of_seq. lia.
Qed.

Lemma elem_of_range1 k x : x ∈ range1 k ↔ 1 ≤ x < Z.of_nat k.
Proof.
  unfold range1. rewrite list_elem_of_fmap. split.
  - intros (i & -> & Hi). apply elem_of_seq in Hi. lia.
  - intros Hx. exists (Z.to_nat x). split; [lia|]. apply elem_of_seq. lia.
Qed.

Lemma sign_abs e : Z.abs (sign e) = 1.
Proof. unfold sign. by destruct (e =? 0). Qed.

Lemma sumZ_signs {A} (f : A → Z) (l : list A) :
  (∀ x, Z.abs (f x) = 1) → Z.abs (sumZ (f <$> l)) ≤ Z.of_nat (length l).
Proof.
  intros Hf. induction l as [|x l IH]; [done|].
  cbn [fmap list_fmap sumZ foldr length] in *.
  fold (sumZ (f <$> l)). specialize (Hf x). lia.
Qed.

Lemma maxZ_upper (l : list Z) m :
  0 ≤ m → (∀ x, x ∈ l → x ≤ m) → maxZ l ≤ m.
Proof.
  intros Hm. induction l as [|x l IH]; intros Hl; [done|].
  cbn [maxZ foldr]. fold (maxZ l).
  apply Z.max_lub; [apply Hl; left|apply IH; intros; apply Hl; by right].
Qed.

Lemma maxZ_lower (l : list Z) x : x ∈ l → x ≤ maxZ l.
Proof.
  induction 1 as [x l|x y l _ IH]; cbn [maxZ foldr]; fold (maxZ l); lia.
Qed.

Lemma count_upper P (l : list Z) : 0 ≤ count P l ≤ Z.of_nat (length l).
Proof. unfold count. pose proof (length_filter (λ x, Is_true (P x)) l). lia. Qed.

Lemma W_bound n t a b : Z.abs (W n t a b) ≤ Z.of_nat (N n).
Proof.
  unfold W. etrans; [apply sumZ_signs|by rewrite length_range].
  intros x. apply sign_abs.
Qed.

Lemma max_abs_walsh_upper n t : max_abs_walsh n t ≤ Z.of_nat (N n).
Proof.
  apply maxZ_upper; [lia|]. intros x Hx.
  apply list_elem_of_bind in Hx as (a & Hx & _).
  apply list_elem_of_fmap in Hx as (b & -> & _). apply W_bound.
Qed.

Lemma max_abs_walsh_lower n t a b :
  0 ≤ a < Z.of_nat (N n) → 1 ≤ b < Z.of_nat (N n) →
  Z.abs (W n t a b) ≤ max_abs_walsh n t.
Proof.
  intros Ha Hb. apply maxZ_lower. apply list_elem_of_bind.
  exists a. split; [|by apply elem_of_range].
  apply list_elem_of_fmap. exists b. split; [done|by apply elem_of_range1].
Qed.

Lemma max_ddt_upper n t : max_ddt n t ≤ Z.of_nat (N n).
Proof.
  apply maxZ_upper; [lia|]. intros x Hx.
  apply list_elem_of_bind in Hx as (dx & Hx & _).
  apply list_elem_of_fmap in Hx as (dy & -> & _).
  unfold DDT. etrans; [apply count_upper|by rewrite length_range].
Qed.

Lemma max_ddt_lower n t dx dy :
  1 ≤ dx < Z.of_nat (N n) → 0 ≤ dy < Z.of_nat (N n) →
  DDT n t dx dy ≤ max_ddt n t.
Proof.
  intros Hdx Hdy. apply maxZ_lower. apply list_elem_of_bind.
  exists dx. split; [|by apply elem_of_range1].
  apply list_elem_of_fmap. exists dy. split; [done|by apply elem_of_range].
Qed.

Lemma identity_max_abs_walsh : max_abs_walsh 8 identity_table = 256.
Proof.
  apply Z.le_antisymm.
  - change 256 with (Z.of_nat (N 8)). apply max_abs_walsh_upper.
  - assert (Z.abs (W 8 identity_table 1 1) = 256) as <- by (vm_compute; reflexivity).
    apply max_abs_walsh_lower; change (Z.of_nat (N 8)) with 256; lia.
Qed.

Lemma identity_max_ddt : max_ddt 8 identity_table = 256.
Proof.
  apply Z.le_antisymm.
  - change 256 with (Z.of_nat (N 8)). apply max_ddt_upper.
  - assert (DDT 8 identity_table 1 1 = 256) as <- by (vm_compute; reflexivity).
    apply max_ddt_lower; change (Z.of_nat (N 8)) with 256; lia.
Qed.

(** C8. On the 256-entry identity table the analyses return LAP = 1,
    DAP = 1, SAC = 1/8 and nonlinearity 0. *)
Theorem identity_metrics :
  ∃ l d s,
    analyse byte_only LAP identity_table = Ok (VFloat l) ∧ (l == 1)%Q ∧
    analyse byte_only DAP identity_table = Ok (VFloat d) ∧ (d == 1)%Q ∧
    analyse byte_only SAC identity_table = Ok (VFloat s) ∧ (s == 1 # 8)%Q ∧
    analyse byte_only NL identity_table = Ok (VInt 0).
Proof.
  assert (validate byte_only identity_table = Ok 8%nat) as Hv
    by (vm_compute; reflexivity).
  exists (lap 8 identity_table), (dap 8 identity_table), (sac 8 identity_table).
  unfold analyse, checked. rewrite Hv. cbn [compute].
  split; [reflexivity|]. split.
  { unfold lap. rewrite identity_max_abs_walsh. vm_compute. reflexivity. }
  split; [reflexivity|]. split.
  { unfold dap. rewrite identity_max_ddt. vm_compute. reflexivity. }
  split; [reflexivity|]. split.
  { vm_compute. reflexivity. }
  unfold nonlinearity. rewrite identity_max_abs_walsh. reflexivity.
Qed.

End EngineFacts.

(** ** Formatting *)
Section PyFacts.
Import Py.

Lemma after_point_app s1 s2 :
  after_point (s1 +:+ s2) =
  match after_point s1 with
  | Some r => Some (r +:+ s2)
  | None => after_point s2
  end.
Proof.
  induction s1 as [|c s1 IH]; [done|].
  change (String c s1 +:+ s2) with (String c (s1 +:+ s2)).
  cbn [after_point]. by destruct (Ascii.eqb c ".").
Qed.

Lemma pretty_N_char_digit x : is_digit (pretty_N_char x) = true.
Proof. unfold pretty_N_char. by repeat case_match. Qed.

Lemma digit_not_point c : is_digit c = true → Ascii.eqb c "." = false.
Proof.
  unfold is_digit. intros Hc. apply bool_decide_eq_true in Hc.
  destruct (Ascii.eqb_spec c ".") as [->|]; [|done].
  vm_compute in Hc. lia.
Qed.

Lemma after_point_pretty_N_go x s :
  after_point (pretty_N_go x s) = after_point s.
Proof.
  revert s. induction (N.lt_wf_0 x) as [x _ IH]; intros s.
  destruct (decide (x = 0)%N) as [->|Hx]; [done|].
  rewrite pretty_N_go_step by lia.
  rewrite IH by (apply N.div_lt; lia).
  cbn. by rewrite digit_not_point by apply pretty_N_char_digit.
Qed.

Lemma after_point_pretty_N (x : N) : after_point (pretty x) = None.
Proof.
  unfold pretty, pretty_N. case_decide; [done|].
  by rewrite after_point_pretty_N_go.
Qed.

Lemma after_point_str_int z : after_point (str_int z) = None.
Proof.
  unfold str_int, pretty, pretty_Z.
  destruct z as [|p|p]; [done|apply after_point_pretty_N|].
  rewrite after_point_app. cbn. apply after_point_pretty_N.
Qed.

Lemma all_digits_app s1 s2 :
  all_digits (s1 +:+ s2) = all_digits s1 && all_digits s2.
Proof.
  induction s1 as [|c s1 IH]; [done|].
  change (String c s1 +:+ s2) with (String c (s1 +:+ s2)).
  cbn [all_digits]. by rewrite IH, andb_assoc.
Qed.

Lemma length_string_app s1 s2 :
  String.length (s1 +:+ s2) = (String.length s1 + String.length s2)%nat.
Proof.
  induction s1 as [|c s1 IH]; [done|].
  change (String c s1 +:+ s2) with (String c (s1 +:+ s2)).
  cbn [String.length]. by rewrite IH.
Qed.

Lemma digits_shape d z :
  all_digits (digits d z) = true ∧ String.length (digits d z) = d.
Proof.
  revert z. induction d as [|d IH]; intros z; [done|].
  cbn [digits]. destruct (IH (z / 10)) as [Ha Hl].
  rewrite all_digits_app, length_string_app, Ha, Hl. cbn.
  rewrite pretty_N_char_digit. split; [done|lia].
Qed.

Lemma decimals_format_fixed d q :
  d ≠ 0%nat → decimals (format_fixed d q) = Some d.
Proof.
  intros Hd. unfold format_fixed, decimals.
  destruct d as [|d]; [done|].
  match goal with
  | |- context [digits ?n ?z] =>
      destruct (digits_shape n z) as [Ha Hl]; revert Ha Hl;
      generalize (digits n z)
  end.
  intros dg Ha Hl.
  rewrite after_point_app.
  assert (after_point (if Qlt_le_dec q 0 then "-" else "") = None) as ->
    by by destruct (Qlt_le_dec q 0).
  rewrite after_point_app, after_point_str_int.
  change (after_point ("." +:+ dg)) with (Some dg).
  cbv beta iota. by rewrite Ha, Hl.
Qed.

Lemma decimals_str_int z : decimals (str_int z) = None.
Proof. unfold decimals. by rewrite after_point_str_int. Qed.

Lemma str_int_exact z z' : str_int z = str_int z' → z = z'.
Proof. apply pretty_Z_inj. Qed.

End PyFacts.

(** ** The grid and the export sheet *)
Section GridFacts.
Import Py.

Lemma length_chunks rows cols l : length (chunks rows cols l) = rows.
Proof. revert l. induction rows as [|r IH]; intros l; cbn; [done|by rewrite IH]. Qed.

Lemma lookup_chunks rows cols l i :
  (i < rows)%nat →
  chunks rows cols l !! i = Some (take cols (drop (i * cols) l)).
Proof.
  revert l i. induction rows as [|r IH]; intros l i Hi; [lia|].
  destruct i as [|i]; cbn [chunks]; [done|].
  rewrite lookup_cons_ne_0 by done. cbn [Nat.pred].
  rewrite IH by lia. by rewrite drop_drop.
Qed.

Lemma concat_chunks rows cols l :
  concat (chunks rows cols l) = take (rows * cols) l.
Proof.
  revert l. induction rows as [|r IH]; intros l; cbn [chunks concat]; [done|].
  rewrite IH. by rewrite take_take_drop.
Qed.

Lemma chunks_cell rows cols l i j :
  (i < rows)%nat → (j < cols)%nat →
  chunks rows cols l !! i ≫= (λ row, row !! j) = l !! (i * cols + j)%nat.
Proof.
  intros Hi Hj. rewrite lookup_chunks by done. cbn.
  rewrite lookup_take_lt by done. by rewrite lookup_drop.
Qed.

Lemma chunks_rows rows cols l :
  length l = (rows * cols)%nat →
  Forall (λ row, length row = cols) (chunks rows cols l).
Proof.
  revert l. induction rows as [|r IH]; intros l Hl; cbn [chunks]; constructor.
  - rewrite length_take. lia.
  - apply IH. rewrite length_drop. lia.
Qed.

Lemma concat_DataFrame_of_list l : concat (DataFrame_of_list l) = l.
Proof. unfold DataFrame_of_list. induction l as [|x l IH]; cbn; [done|by rewrite IH]. Qed.
End GridFacts.

(** ** The page as a function of its inputs *)
Section AppFacts.
Import Py App.
Context `{Pandas} `{Utils}.

Ltac run_M :=
  cbv [mbind M_bind mret M_ret emit lift call set_session get_session
       when try_except];
  cbn [session_state ui calls].

Lemma length_adjust raw : length (adjust raw) = 256%nat.
Proof.
  unfold adjust. repeat case_decide.
  - rewrite length_app, length_replicate. lia.
  - rewrite length_take. lia.
  - lia.
Qed.

Lemma adjust_size_spec raw w :
  adjust_size raw w =
  (Ok (adjust raw),
   World (session_state w) (ui w ++ size_warning raw) (calls w)).
Proof.
  unfold adjust_size, adjust, size_warning. destruct w as [ss u c].
  repeat case_decide; run_M; rewrite ?app_nil_r; reflexivity.
Qed.

Lemma display_spec sbox w :
  length sbox = 256%nat →
  display sbox w =
  (Ok tt,
   World (session_state w)
     (ui w ++ [st_subheader "Imported S-box";
               st_table (chunks 16 16 sbox) grid_labels grid_labels])
     (calls w)).
Proof.
  intros Hlen. unfold display, reshape.
  destruct (decide (length sbox = (16 * 16)%nat)) as [_|Hn]; [|lia].
  destruct w as [ss u c]. run_M. by rewrite <- app_assoc.
Qed.

Lemma blocks_spec opts sbox ms w :
  blocks opts sbox ms w =
  finish (run_metrics (filter (λ m, m_label m ∈ opts) ms) sbox) w.
Proof.
  revert w. induction ms as [|m ms IH]; intros [ss u c].
  - unfold finish. cbn. by rewrite !app_nil_r.
  - change (blocks opts sbox (m :: ms))
      with (block opts sbox m ;; blocks opts sbox ms).
    rewrite filter_cons. unfold block.
    destruct (decide (m_label m ∈ opts)) as [Hin|Hin].
    + rewrite bool_decide_true by done. cbn [run_metrics]. run_M.
      destruct (m_run m sbox) as [v|e].
      * rewrite IH. destruct (run_metrics _ _) as [[cs us] e].
        unfold finish; cbn. by rewrite <- !app_assoc.
      * unfold finish; cbn. by rewrite app_nil_r.
    + rewrite bool_decide_false by done. run_M. apply IH.
Qed.

Lemma bind_ext {A B} (m m' : M A) (k k' : A → M B) w :
  (∀ w, m w = m' w) → (∀ a w, k a w = k' a w) →
  (m ≫= k) w = (m' ≫= k') w.
Proof.
  intros Hm Hk. unfold mbind, M_bind. rewrite Hm.
  destruct (m' w) as [[a|e] w']; [apply Hk|done].
Qed.

Lemma bind_ret_r (m : M unit) w : (m ;; mret tt) w = m w.
Proof. run_M. by destruct (m w) as [[[]|e] w']. Qed.

Lemma shown_block {A} opts sbox l nm (fmt : A → string) f w :
  when (bool_decide (l ∈ opts))
    (v ← call nm f sbox; emit (st_metric l (fmt v))) w
  = block opts sbox (Metric l nm (shown fmt f)) w.
Proof.
  unfold block, shown. cbn [m_label m_name m_run].
  case_bool_decide; run_M; [|done]. by destruct (f sbox).
Qed.

Lemma evaluate_blocks opts sbox w :
  evaluate opts sbox w =
  (emit (st_subheader "S-box Cryptographic Evaluation");;
   blocks opts sbox metrics) w.
Proof.
  unfold evaluate, blocks, metrics. cbn [foldr].
  apply bind_ext; [done|intros _ w1].
  do 5 (apply bind_ext; [apply shown_block|clear w1; intros _ w1]).
  rewrite bind_ret_r. apply shown_block.
Qed.

Lemma evaluate_spec opts sbox w :
  evaluate opts sbox w =
  let o := run_metrics (selected opts) sbox in
  (match o.2 with None => Ok tt | Some e => Raise e end,
   World (session_state w)
     (ui w ++ st_subheader "S-box Cryptographic Evaluation" :: o.1.2)
     (calls w ++ o.1.1)).
Proof.
  rewrite evaluate_blocks. unfold mbind at 1, M_bind at 1, emit.
  rewrite blocks_spec. unfold finish, selected. cbn.
  by rewrite <- app_assoc.
Qed.
Lemma process_spec opts df w :
  process opts df w =
  match flatten_astype_int_tolist df with
  | Raise e => (Raise e, w)
  | Ok raw =>
      let sbox := adjust raw in
      let o := run_metrics (selected opts) sbox in
      (match o.2 with None => Ok tt | Some e => Raise e end,
       World (<["sbox" := PyList sbox]> (session_state w))
         (ui w ++ size_warning raw
          ++ [st_subheader "Imported S-box";
              st_table (chunks 16 16 sbox) grid_labels grid_labels;
              st_subheader "S-box Cryptographic Evaluation"]
          ++ o.1.2
          ++ match o.2 with None => [download sbox] | Some _ => [] end)
         (calls w ++ o.1.1))
  end.
Proof.
  unfold process. unfold mbind at 1, M_bind at 1, lift at 1.
  destruct (flatten_astype_int_tolist df) as [raw|e]; [|done].
  unfold mbind at 1, M_bind at 1. rewrite adjust_size_spec.
  unfold mbind at 1, M_bind at 1, set_session. cbn [session_state ui calls].
  unfold mbind at 1, M_bind at 1.
  rewrite display_spec by apply length_adjust. cbn [session_state ui calls].
  unfold mbind at 1, M_bind at 1.
  rewrite evaluate_spec. cbn [session_state ui calls].
  destruct (run_metrics _ _) as [[cs us] [e|]]; cbn [fst snd].
  - by rewrite app_nil_r, <- !app_assoc.
  - unfold export, emit, download. cbn [session_state ui calls].
    by rewrite <- !app_assoc.
Qed.

Lemma handle_upload_spec up opts w :
  handle_upload up opts w =
  (Ok tt,
   World (store (stored up) (session_state w))
     (ui w ++ page up opts) (calls w ++ called up opts)).
Proof.
  unfold handle_upload, try_except, called, stored, page, parse.
  destruct w as [ss u c].
  destruct up as [f|]; [|by rewrite app_nil_r].
  assert (∀ r : result exception dataframe,
    (df ← lift r; process opts df) (World ss u c) =
    match r with
    | Ok df => process opts df (World ss u c)
    | Raise e => (Raise e, World ss u c)
    end) as Hbind by (by intros [df|e]).
  destruct (endswith (name f) ".csv");
    [|destruct (endswith (name f) ".xls" || endswith (name f) ".xlsx")].
  3: { unfold emit. cbn [ui calls session_state store].
       by rewrite app_nil_r. }
  all: rewrite Hbind;
    match goal with |- context [match ?r with Ok _ => _ | Raise _ => _ end] =>
      destruct r as [df|e] end;
    [rewrite process_spec; destruct (flatten_astype_int_tolist df) as [raw|e]|];
    [cbv zeta; destruct (run_metrics _ _) as [[cs us] [e|]]|..];
    unfold emit, reported; cbn [fst snd ui calls session_state store];
    rewrite ?app_nil_r, <- ?app_assoc; reflexivity.
Qed.

Lemma main_spec up opts w :
  main up opts w =
  (Ok tt,
   World (store (stored up) (init_session (session_state w)))
     (ui w ++ header ++ page up opts) (calls w ++ called up opts)).
Proof.
  unfold main, init_session, header. destruct w as [ss u c].
  run_M.
  case_bool_decide; rewrite handle_upload_spec;
    cbn [session_state ui calls]; by rewrite <- !app_assoc.
Qed.

(** A second run of the page on the state the first one left. *)
Lemma store_init_idem o ss :
  store o (init_session (store o (init_session ss))) = store o (init_session ss).
Proof.
  assert (∀ m : gmap string pyobj, is_Some (m !! "sbox") → init_session m = m)
    as Hid.
  { intros m [v Hv]. unfold init_session.
    rewrite bool_decide_false; [done|congruence]. }
  assert (is_Some (init_session ss !! "sbox")) as Hinit.
  { unfold init_session. case_bool_decide as Hs.
    - rewrite lookup_insert_eq. eauto.
    - by destruct (ss !! "sbox"); eauto. }
  destruct o as [sbox|]; cbn [store].
  - rewrite (Hid (<["sbox":=_]> _)) by (rewrite lookup_insert_eq; eauto).
    by rewrite insert_insert_eq.
  - by rewrite Hid.
Qed.
End AppFacts.

(** ** What a run of the page does *)
Section Claims.
Import Py App.
Context `{Pandas} `{Utils}.

Lemma run_metrics_calls ms sbox nm t :
  (nm, t) ∈ (run_metrics ms sbox).1.1 →
  t = sbox ∧ ∃ m, m ∈ ms ∧ m_name m = nm.
Proof.
  induction ms as [|m ms IH]; cbn [run_metrics].
  - intros Hin. by apply elem_of_nil in Hin.
  - destruct (m_run m sbox) as [v|e].
    + destruct (run_metrics ms sbox) as [[cs us] e]. cbn [fst snd] in *.
      rewrite elem_of_cons. intros [[= -> ->]|Hin].
      * split; [done|]. exists m. split; [left|done].
      * destruct (IH Hin) as (-> & m' & Hm' & Hnm).
        split; [done|]. exists m'. split; [by right|done].
    + cbn [fst snd]. rewrite list_elem_of_singleton. intros [= -> ->].
      split; [done|]. exists m. split; [left|done].
Qed.

Lemma run_metrics_shown ms sbox e :
  e ∈ (run_metrics ms sbox).1.2 →
  ∃ m v, m ∈ ms ∧ m_run m sbox = Ok v ∧ e = st_metric (m_label m) v.
Proof.
  induction ms as [|m ms IH]; cbn [run_metrics].
  - intros Hin. by apply elem_of_nil in Hin.
  - destruct (m_run m sbox) as [v|e'] eqn:Hm.
    + destruct (run_metrics ms sbox) as [[cs us] e']. cbn [fst snd] in *.
      rewrite elem_of_cons. intros [->|Hin].
      * exists m, v. split; [left|done].
      * destruct (IH Hin) as (m' & v' & Hm' & Hv' & ->).
        exists m', v'. split; [by right|done].
    + cbn [fst snd]. intros Hin. by apply elem_of_nil in Hin.
Qed.



(** The world a run ends in when the upload parses to [raw]. *)
Lemma main_parsed f opts ss raw :
  parse f = Some (Ok raw) →
  let o := run_metrics (selected opts) (adjust raw) in
  main (Some f) opts (start ss) =
  (Ok tt,
   World (<["sbox" := PyList (adjust raw)]> (init_session ss))
     (header ++ size_warning raw
      ++ [st_subheader "Imported S-box";
          st_table (chunks 16 16 (adjust raw)) grid_labels grid_labels;
          st_subheader "S-box Cryptographic Evaluation"]
      ++ o.1.2
      ++ [match o.2 with
          | None => download (adjust raw)
          | Some e => reported e
          end])
     o.1.1).
Proof.
  intros Hp. rewrite main_spec. unfold called, stored, page. rewrite Hp.
  cbn [store start session_state ui calls app].
  by destruct (run_metrics _ _) as [[cs us] e].
Qed.

Lemma shown_metrics_app u1 u2 :
  shown_metrics (u1 ++ u2) = shown_metrics u1 ++ shown_metrics u2.
Proof. apply omap_app. Qed.

Lemma shown_metrics_size_warning raw : shown_metrics (size_warning raw) = [].
Proof. unfold size_warning. by repeat case_decide. Qed.


Lemma adjust_cases raw :
  ((length raw < 256)%nat → adjust raw = raw ++ replicate (256 - length raw) 0)
  ∧ ((256 < length raw)%nat → adjust raw = take 256 raw)
  ∧ (length raw = 256%nat → adjust raw = raw).
Proof. unfold adjust. repeat case_decide; split_and!; intros; (done || lia). Qed.

(** Where an element of the page of a parsed upload comes from. *)
Lemma page_parsed_cases f opts ss raw e :
  parse f = Some (Ok raw) →
  e ∈ ui (main (Some f) opts (start ss)).2 →
  e ∈ header ∨ e ∈ size_warning raw
  ∨ e = st_subheader "Imported S-box"
  ∨ e = st_table (chunks 16 16 (adjust raw)) grid_labels grid_labels
  ∨ e = st_subheader "S-box Cryptographic Evaluation"
  ∨ (∃ m v, m ∈ selected opts ∧ m_run m (adjust raw) = Ok v
            ∧ e = st_metric (m_label m) v)
  ∨ e = download (adjust raw)
  ∨ ∃ x, e = reported x.
Proof.
  intros Hp. rewrite (main_parsed f opts ss raw Hp). cbn [snd ui].
  rewrite !elem_of_app, !elem_of_cons.
  intros [?|[?|[[?|[?|[?|Hnil]]]|[Hm|[Hl|Hnil]]]]]; auto 6.
  - by apply elem_of_nil in Hnil.
  - apply run_metrics_shown in Hm. auto 8.
  - destruct (run_metrics _ _).2; [|auto 8].
    do 7 right. eauto.
  - by apply elem_of_nil in Hnil.
Qed.

Lemma header_cases e :
  e ∈ header →
  (∃ b, e = st_title b) ∨ (∃ b, e = st_sidebar_header b)
  ∨ (∃ l t, e = st_sidebar_file_uploader l t)
  ∨ ∃ l o d k, e = st_sidebar_multiselect l o d k.
Proof.
  unfold header. rewrite !elem_of_cons.
  intros [->|[->|[->|[->|Hnil]]]]; eauto 8.
  by apply elem_of_nil in Hnil.
Qed.

Lemma size_warning_cases raw e :
  e ∈ size_warning raw → ∃ b, e = st_warning b.
Proof.
  unfold size_warning. repeat case_decide;
    rewrite ?elem_of_cons; intros Hin;
    repeat destruct Hin as [->|Hin]; eauto; by apply elem_of_nil in Hin.
Qed.

Ltac page_cases Hp Hin :=
  apply (page_parsed_cases _ _ _ _ _ Hp) in Hin;
  destruct Hin as [Hin|[Hin|[Hin|[Hin|[Hin|[Hin|[Hin|Hin]]]]]]];
  [ apply header_cases in Hin;
    destruct Hin as [[? Hin]|[[? Hin]|[(? & ? & Hin)|(? & ? & ? & ? & Hin)]]];
    discriminate Hin
  | apply size_warning_cases in Hin; destruct Hin as [? Hin]; discriminate Hin
  | try discriminate Hin ..].

(** C2. For a parsed upload, the table [main] holds before any analysis
    is invoked has exactly 256 entries: a shorter table extended with a
    fill value, a longer one cut to its first 256 entries.  It is the table
    that [main] stores, that every call into the analyses receives, and
    that the first selected analysis is called with. *)
Theorem ingestion_adjusts_before_analysis f opts ss raw :
  parse f = Some (Ok raw) →
  let w := (main (Some f) opts (start ss)).2 in
  ∃ sbox,
    length sbox = 256%nat
    ∧ ((length raw < 256)%nat →
       ∃ fill, sbox = raw ++ replicate (256 - length raw) fill)
    ∧ ((256 < length raw)%nat → sbox = take 256 raw)
    ∧ (length raw = 256%nat → sbox = raw)
    ∧ session_state w !! "sbox" = Some (PyList sbox)
    ∧ (∀ nm t, (nm, t) ∈ calls w → t = sbox)
    ∧ (∀ m ms, selected opts = m :: ms →
         head (calls w) = Some (m_name m, sbox)).
Proof.
  intros Hp w. exists (adjust raw).
  destruct (adjust_cases raw) as (Hlt & Hgt & Heq).
  subst w. rewrite (main_parsed f opts ss raw Hp).
  cbn [snd session_state calls].
  split_and!; [apply length_adjust|eauto|done|done|apply lookup_insert_eq| |].
  - intros nm t Hin. by apply run_metrics_calls in Hin as [-> _].
  - intros m ms Hsel. rewrite Hsel. cbn [run_metrics].
    destruct (m_run m (adjust raw)) as [v|e]; [|done].
    by destruct (run_metrics ms (adjust raw)) as [[cs us] e].
Qed.

(** C6. After a parsed upload the S-box in the session state has exactly
    256 entries, and it is the list passed to every analysis, laid out in
    the 16x16 grid and written to the export. *)
Theorem stored_sbox_has_256_entries f opts ss raw :
  parse f = Some (Ok raw) →
  let w := (main (Some f) opts (start ss)).2 in
  ∃ sbox,
    session_state w !! "sbox" = Some (PyList sbox)
    ∧ length sbox = 256%nat
    ∧ (∀ nm t, (nm, t) ∈ calls w → t = sbox)
    ∧ st_table (chunks 16 16 sbox) grid_labels grid_labels ∈ ui w
    ∧ (∀ grid cols idx, st_table grid cols idx ∈ ui w →
         length grid = 16%nat ∧ Forall (λ row, length row = 16%nat) grid
         ∧ concat grid = sbox)
    ∧ (∀ l data fn mime, st_download_button l data fn mime ∈ ui w →
         length data = 256%nat ∧ concat data = sbox).
Proof.
  intros Hp w. exists (adjust raw).
  pose proof (length_adjust raw) as Hlen.
  split_and!.
  - subst w. rewrite (main_parsed f opts ss raw Hp). cbn [snd session_state].
    apply lookup_insert_eq.
  - done.
  - subst w. rewrite (main_parsed f opts ss raw Hp). cbn [snd calls].
    intros nm t Hin. by apply run_metrics_calls in Hin as [-> _].
  - subst w. rewrite (main_parsed f opts ss raw Hp). cbn [snd ui].
    rewrite !elem_of_app, !elem_of_cons. auto 7.
  - intros grid cols idx Hin. page_cases Hp Hin.
    + assert (grid = chunks 16 16 (adjust raw)) as -> by congruence.
      split_and!.
      * apply length_chunks.
      * by apply chunks_rows.
      * rewrite concat_chunks, take_ge; [done|lia].
    + by destruct Hin as (m & v & _ & _ & ?).
    + by destruct Hin as [x ?].
  - intros l data fn mime Hin. page_cases Hp Hin.
    + by destruct Hin as (m & v & _ & _ & ?).
    + assert (data = DataFrame_of_list (adjust raw)) as ->
        by (unfold download in Hin; congruence).
      split.
      * unfold DataFrame_of_list. by rewrite length_fmap.
      * apply concat_DataFrame_of_list.
    + by destruct Hin as [x ?].
Qed.

(** C9. A parsed upload of fewer than 256 entries is stored as its
    entries, in order, followed by [256 - length] zeros. *)
Theorem padding_fill_is_zero f opts ss raw :
  parse f = Some (Ok raw) → (length raw < 256)%nat →
  session_state (main (Some f) opts (start ss)).2 !! "sbox"
  = Some (PyList (raw ++ replicate (256 - length raw) 0)).
Proof.
  intros Hp Hlt. rewrite (main_parsed f opts ss raw Hp).
  cbn [snd session_state]. rewrite lookup_insert_eq.
  by destruct (adjust_cases raw) as (-> & _ & _).
Qed.



Lemma metrics_cases m :
  m ∈ metrics →
  m = Metric LAP_label "linear_approximation_probability"
        (shown (format_fixed 6) linear_approximation_probability)
  ∨ m = Metric NL_label "compute_nonlinearity"
        (shown str_int compute_nonlinearity)
  ∨ m = Metric SAC_label "strict_avalanche_criterion"
        (shown (format_fixed 10) strict_avalanche_criterion)
  ∨ m = Metric DAP_label "calculate_dap"
        (shown (format_fixed 10) calculate_dap)
  ∨ m = Metric BIC_SAC_label "calculate_bic_sac"
        (shown (format_fixed 10) calculate_bic_sac)
  ∨ m = Metric BIC_NL_label "calculate_bic_nl"
        (shown str_int calculate_bic_nl).
Proof.
  unfold metrics. rewrite !elem_of_cons.
  intros [?|[?|[?|[?|[?|[?|Hnil]]]]]]; auto 7.
  by apply elem_of_nil in Hnil.
Qed.

Lemma shown_ok {A} (fmt : A → string) g t s :
  shown fmt g t = Ok s → ∃ v, g t = Ok v ∧ s = fmt v.
Proof. unfold shown. destruct (g t) as [v|e]; [|done]. intros [= <-]. eauto. Qed.

Lemma metric_in_page up opts l s :
  st_metric l s ∈ page up opts →
  ∃ sbox m, stored up = Some sbox ∧ m ∈ selected opts
            ∧ m_label m = l ∧ m_run m sbox = Ok s.
Proof.
  unfold page, stored. destruct up as [f|].
  2: { rewrite list_elem_of_singleton. discriminate. }
  destruct (parse f) as [[raw|e]|].
  2,3: rewrite list_elem_of_singleton; discriminate.
  destruct (run_metrics _ _) as [[cs us] e] eqn:Hrun.
  rewrite !elem_of_app, !elem_of_cons.
  intros [Hin|[[Hin|[Hin|[Hin|Hin]]]|[Hin|[Hin|Hin]]]]; try discriminate Hin.
  - apply size_warning_cases in Hin as [? Hin]. discriminate Hin.
  - by apply elem_of_nil in Hin.
  - pose proof (run_metrics_shown (selected opts) (adjust raw) (st_metric l s))
      as Hs. rewrite Hrun in Hs.
    destruct (Hs Hin) as (m & v & Hm & Hv & [= -> ->]). eauto 6.
  - by destruct e.
  - by apply elem_of_nil in Hin.
Qed.

(** C5. Every metric on the page has its specified form: LAP with 6
    digits after the point, SAC, DAP and BIC-SAC with 10, nonlinearity and
    BIC-NL as the decimal numeral of the integer returned (which
    determines that integer). *)
Theorem metric_display_formats up opts ss l s :
  st_metric l s ∈ ui (main up opts (start ss)).2 →
  ∃ sbox, stored up = Some sbox ∧
    ((l = LAP_label ∧ ∃ v, linear_approximation_probability sbox = Ok v
        ∧ s = format_fixed 6 v ∧ decimals s = Some 6%nat)
     ∨ (l = NL_label ∧ ∃ z, compute_nonlinearity sbox = Ok z
        ∧ s = str_int z ∧ ∀ z', str_int z' = s → z' = z)
     ∨ (l = SAC_label ∧ ∃ v, strict_avalanche_criterion sbox = Ok v
        ∧ s = format_fixed 10 v ∧ decimals s = Some 10%nat)
     ∨ (l = DAP_label ∧ ∃ v, calculate_dap sbox = Ok v
        ∧ s = format_fixed 10 v ∧ decimals s = Some 10%nat)
     ∨ (l = BIC_SAC_label ∧ ∃ v, calculate_bic_sac sbox = Ok v
        ∧ s = format_fixed 10 v ∧ decimals s = Some 10%nat)
     ∨ (l = BIC_NL_label ∧ ∃ z, calculate_bic_nl sbox = Ok z
        ∧ s = str_int z ∧ ∀ z', str_int z' = s → z' = z)).
Proof.
  rewrite main_spec. cbn [snd ui start app]. rewrite elem_of_app.
  intros [Hin|Hin].
  { apply header_cases in Hin.
    destruct Hin as [[? Hin]|[[? Hin]|[(? & ? & Hin)|(? & ? & ? & ? & Hin)]]];
      discriminate Hin. }
  apply metric_in_page in Hin as (sbox & m & Hst & Hm & Hl & Hrun).
  subst l.
  exists sbox. split; [done|].
  apply list_elem_of_filter in Hm as [_ Hm].
  apply metrics_cases in Hm as [->|[->|[->|[->|[->| ->]]]]];
    cbn [m_label m_run] in *; apply shown_ok in Hrun as (v & Hv & ->).
  - left. split; [done|]. exists v. split_and!; [done..|].
    by apply decimals_format_fixed.
  - right; left. split; [done|]. exists v. split_and!; [done..|].
    intros z' Hz. by apply str_int_exact.
  - do 2 right; left. split; [done|]. exists v. split_and!; [done..|].
    by apply decimals_format_fixed.
  - do 3 right; left. split; [done|]. exists v. split_and!; [done..|].
    by apply decimals_format_fixed.
  - do 4 right; left. split; [done|]. exists v. split_and!; [done..|].
    by apply decimals_format_fixed.
  - do 5 right. split; [done|]. exists v. split_and!; [done..|].
    intros z' Hz. by apply str_int_exact.
Qed.

(** X13. Running the page again on the session state the first run left,
    with the same upload and selection, yields the same outcome, page,
    calls and session state. *)
Theorem rerun_yields_identical_results up opts ss :
  let r1 := main up opts (start ss) in
  main up opts (start (session_state r1.2)) = r1.
Proof.
  intros r1. subst r1. rewrite !main_spec.
  cbn [snd start session_state ui calls]. by rewrite store_init_idem.
Qed.

(** C10. For a 256-entry S-box the grid shown holds entry [16 i + j] at
    row [i], column [j], the export holds the entries one per row in
    order, flattening either gives the S-box back, and neither step
    changes the session state. *)
Theorem display_and_export_keep_table sbox w :
  length sbox = 256%nat →
  ∃ grid data,
    display sbox w =
      (Ok tt, World (session_state w)
                (ui w ++ [st_subheader "Imported S-box";
                          st_table grid grid_labels grid_labels])
                (calls w))
    ∧ length grid = 16%nat
    ∧ (∀ i j, (i < 16)%nat → (j < 16)%nat →
         grid !! i ≫= (λ row, row !! j) = sbox !! (i * 16 + j)%nat)
    ∧ concat grid = sbox
    ∧ export sbox w =
        (Ok tt, World (session_state w)
                  (ui w ++ [st_download_button "Download S-box as Excel" data
                              "sbox_data.xlsx"
                              "application/vnd.openxmlformats-officedocument.spreadsheetml.sheet"])
                  (calls w))
    ∧ (∀ i, data !! i = (λ v, [v]) <$> sbox !! i)
    ∧ concat data = sbox.
Proof.
  intros Hlen. exists (chunks 16 16 sbox), (DataFrame_of_list sbox).
  split_and!.
  - by apply display_spec.
  - apply length_chunks.
  - intros i j Hi Hj. by apply chunks_cell.
  - rewrite concat_chunks, take_ge; [done|lia].
  - done.
  - intros i. unfold DataFrame_of_list. apply list_lookup_fmap.
  - apply concat_DataFrame_of_list.
Qed.

End Claims.

(** ** Failures, with the engine behind the page *)
Section EngineBehindMain.
Import Py App.
Context `{Pandas}.
Variable supported : nat → bool.


End EngineBehindMain.

Section Samples.
Import Py App Sample Reruns.


End Samples.

(** ** The statements at sample uploads *)
Section Witnesses.
Import Py App Sample.

Lemma analyse_validates_witness :
  Engine.analyse Engine.byte_only Engine.LAP short_table
    = Raise Engine.InvalidTableLength
  ∧ Engine.analyse Engine.byte_only Engine.NL (adjust bad_table)
    = Raise Engine.ValueOutOfRange
  ∧ Engine.analyse Engine.byte_only Engine.SAC Engine.identity_table
    = Ok (Engine.compute 8 Engine.identity_table Engine.SAC).
Proof.
  split_and!.
  - apply (analyse_validates Engine.byte_only Engine.LAP short_table).
    intros (n & Hn & _ & Hl). apply Nat.eqb_eq in Hn. subst n.
    vm_compute in Hl. discriminate Hl.
  - destruct (analyse_validates Engine.byte_only Engine.NL (adjust bad_table))
      as [_ Hpow].
    destruct (Hpow 8%nat) as [Hbad _]; [reflexivity|lia|reflexivity|].
    apply Hbad. exists 300. split; [left|right; vm_compute; discriminate].
  - destruct (analyse_validates Engine.byte_only Engine.SAC
                Engine.identity_table) as [_ Hpow].
    destruct (Hpow 8%nat) as [_ Hgood]; [reflexivity|lia|reflexivity|].
    apply Hgood. intros v Hv. apply elem_of_range in Hv.
    change (Z.of_nat (length Engine.identity_table)) with 256. lia.
Defined.

Lemma ingestion_adjusts_before_analysis_witness :
  let w := (@main (reads_as (Ok long_table)) engine (Some csv_file)
              [SAC_label] (start ∅)).2 in
  ∃ sbox,
    length sbox = 256%nat ∧ sbox = take 256 long_table
    ∧ session_state w !! "sbox" = Some (PyList sbox)
    ∧ head (calls w) = Some ("strict_avalanche_criterion", sbox).
Proof.
  intros w.
  destruct (@ingestion_adjusts_before_analysis (reads_as (Ok long_table))
              engine csv_file [SAC_label] ∅ long_table)
    as (sbox & Hlen & _ & Hgt & _ & Hst & _ & Hhead); [reflexivity|].
  exists sbox. split; [exact Hlen|]. split.
  - apply Hgt. apply Nat.ltb_lt. reflexivity.
  - split; [exact Hst|].
    apply (Hhead (Metric SAC_label "strict_avalanche_criterion"
                    (shown (format_fixed 10)
                       (@strict_avalanche_criterion engine))) []).
    reflexivity.
Defined.



Lemma metric_display_formats_witness :
  decimals "0.1250000000" = Some 10%nat.
Proof.
  destruct (@metric_display_formats (reads_as (Ok Engine.identity_table))
              engine (Some csv_file) [SAC_label] ∅ SAC_label "0.1250000000")
    as (sbox & _ & [[E _]|[[E _]|[(_ & v & _ & _ & Hd)|[[E _]|[[E _]|[E _]]]]]]);
    [|discriminate E|discriminate E|exact Hd|discriminate E..].
  vm_compute. repeat constructor.
Defined.

Lemma stored_sbox_has_256_entries_witness :
  ∃ sbox,
    session_state (@main (reads_as (Ok short_table)) engine (Some csv_file)
                     [] (start ∅)).2 !! "sbox" = Some (PyList sbox)
    ∧ length sbox = 256%nat.
Proof.
  destruct (@stored_sbox_has_256_entries (reads_as (Ok short_table)) engine
              csv_file [] ∅ short_table)
    as (sbox & Hs & Hlen & _); [reflexivity|].
  exists sbox. split; [exact Hs|exact Hlen].
Defined.

Lemma padding_fill_is_zero_witness :
  session_state (@main (reads_as (Ok short_table)) engine (Some csv_file)
                   [] (start ∅)).2 !! "sbox"
  = Some (PyList (short_table ++ replicate (256 - length short_table) 0)).
Proof.
  apply (@padding_fill_is_zero (reads_as (Ok short_table)) engine
           csv_file [] ∅ short_table); [reflexivity|].
  apply Nat.ltb_lt. reflexivity.
Defined.

Lemma display_and_export_keep_table_witness :
  ∃ grid data : list table,
    length grid = 16%nat ∧ concat grid = Engine.identity_table
    ∧ concat data = Engine.identity_table.
Proof.
  destruct (display_and_export_keep_table Engine.identity_table (start ∅))
    as (grid & data & _ & Hlen & _ & Hgrid & _ & _ & Hdata); [reflexivity|].
  exists grid, data. split; [exact Hlen|]. split; [exact Hgrid|exact Hdata].
Defined.
End Witnesses.

(** ** Further properties of a run *)
Section RunFacts.
Import Py App Reruns.
Context `{Pandas} `{Utils}.

Lemma stored_parsed f raw :
  parse f = Some (Ok raw) → stored (Some f) = Some (adjust raw).
Proof. intros Hp. unfold stored. by rewrite Hp. Qed.

Lemma stored_unparsed up :
  (∀ f raw, up = Some f → parse f ≠ Some (Ok raw)) → stored up = None.
Proof.
  intros Hno. unfold stored. destruct up as [f|]; [|done].
  destruct (parse f) as [[raw|e]|] eqn:Hp; [|done..].
  by destruct (Hno f raw).
Qed.

Lemma adjust_256 sbox : length sbox = 256%nat → adjust sbox = sbox.
Proof. intros Hl. by destruct (adjust_cases sbox) as (_ & _ & ->). Qed.

Lemma metric_label_listed m : m ∈ metrics → m_label m ∈ metric_labels.
Proof.
  intros Hm. unfold metric_labels.
  apply metrics_cases in Hm as [->|[->|[->|[->|[->| ->]]]]];
    cbn [m_label]; rewrite !elem_of_cons; auto 7.
Qed.

Lemma filter_agree {A} (P Q : A → Prop) `{∀ x, Decision (P x)}
      `{∀ x, Decision (Q x)} (l : list A) :
  (∀ x, x ∈ l → (P x ↔ Q x)) → filter P l = filter Q l.
Proof.
  induction l as [|x l IH]; intros Hpq; [done|].
  rewrite !filter_cons.
  assert (P x ↔ Q x) as Hx by (apply Hpq; left).
  rewrite IH by (intros; apply Hpq; by right).
  destruct (decide (P x)), (decide (Q x)); tauto || done.
Qed.

Lemma selected_agree opts opts' :
  (∀ l, l ∈ metric_labels → (l ∈ opts ↔ l ∈ opts')) →
  selected opts = selected opts'.
Proof.
  intros Hl. unfold selected. apply filter_agree.
  intros m Hm. by apply Hl, metric_label_listed.
Qed.

Lemma selected_none opts :
  (∀ l, l ∈ metric_labels → l ∉ opts) → selected opts = [].
Proof.
  intros Hl. unfold selected.
  rewrite (filter_agree _ (λ _, False) metrics).
  - induction metrics as [|m ms IH]; [done|].
    rewrite filter_cons. by destruct (decide False).
  - intros m Hm. split; [|done]. by apply Hl, metric_label_listed.
Qed.

Lemma run_metrics_returns ms sbox :
  (run_metrics ms sbox).2 = None ↔
  ∀ m, m ∈ ms → is_ok (m_run m sbox) = true.
Proof.
  induction ms as [|m ms IH]; cbn [run_metrics].
  - split; [|done]. intros _ m Hm. by apply elem_of_nil in Hm.
  - destruct (m_run m sbox) as [v|e] eqn:Hm.
    + destruct (run_metrics ms sbox) as [[cs us] e]. cbn [snd] in *.
      rewrite IH. split.
      * intros Hok m' Hm'. apply elem_of_cons in Hm' as [->|Hm'];
          [by rewrite Hm|by apply Hok].
      * intros Hok m' Hm'. apply Hok. by right.
    + cbn [snd]. split; [done|]. intros Hok.
      specialize (Hok m ltac:(left)). by rewrite Hm in Hok.
  Qed.

Lemma run_metrics_stops pre m post sbox e :
  (∀ m', m' ∈ pre → is_ok (m_run m' sbox) = true) →
  m_run m sbox = Raise e →
  ∃ us,
    run_metrics (pre ++ m :: post) sbox
    = ((λ m', (m_name m', sbox)) <$> (pre ++ [m]), us, Some e)
    ∧ Forall2 (λ m' lv, lv.1 = m_label m' ∧ m_run m' sbox = Ok lv.2)
        pre (shown_metrics us).
Proof.
  intros Hpre Hm. induction pre as [|p pre IH].
  - exists []. cbn [app run_metrics]. rewrite Hm. split; [done|constructor].
  - destruct IH as (us & Hrun & Hus); [intros; apply Hpre; by right|].
    pose proof (Hpre p ltac:(left)) as Hp.
    destruct (m_run p sbox) as [v|e'] eqn:Hv; [|done].
    exists (st_metric (m_label p) v :: us).
    change ((p :: pre) ++ m :: post) with (p :: (pre ++ m :: post)).
    cbn [run_metrics]. rewrite Hv, Hrun. split; [done|].
    cbn. constructor; [by rewrite Hv|done].
Qed.

Lemma warnings_app u1 u2 : warnings (u1 ++ u2) = warnings u1 ++ warnings u2.
Proof. apply omap_app. Qed.

Lemma warnings_run_metrics ms sbox : warnings (run_metrics ms sbox).1.2 = [].
Proof.
  induction ms as [|m ms IH]; cbn [run_metrics]; [done|].
  destruct (m_run m sbox) as [v|e]; [|done].
  by destruct (run_metrics ms sbox) as [[cs us] e].
Qed.

Lemma warnings_parsed f opts ss raw :
  parse f = Some (Ok raw) →
  warnings (ui (main (Some f) opts (start ss)).2) = warnings (size_warning raw).
Proof.
  intros Hp. rewrite (main_parsed f opts ss raw Hp). cbn [snd ui].
  pose proof (warnings_run_metrics (selected opts) (adjust raw)) as Hus.
  destruct (run_metrics (selected opts) (adjust raw)) as [[cs us] oe].
  cbn [fst snd] in *.
  rewrite !warnings_app, Hus.
  change (warnings header) with (@nil string).
  rewrite app_nil_l. destruct oe; cbn; by rewrite app_nil_r.
Qed.

Lemma chunks_concat (grid : list table) rows cols :
  length grid = rows → Forall (λ row, length row = cols) grid →
  chunks rows cols (concat grid) = grid.
Proof.
  revert rows. induction grid as [|row grid IH]; intros rows Hr Hc;
    subst rows; [done|].
  apply Forall_cons in Hc as [Hrow Hc].
  cbn [length chunks concat].
  rewrite take_app_length' by done. rewrite drop_app_length' by done.
  by rewrite IH.
Qed.

Lemma length_concat_grid (grid : list table) rows cols :
  length grid = rows → Forall (λ row, length row = cols) grid →
  length (concat grid) = (rows * cols)%nat.
Proof.
  revert rows. induction grid as [|row grid IH]; intros rows Hr Hc;
    subst rows; [done|].
  apply Forall_cons in Hc as [Hrow Hc].
  cbn [concat length]. rewrite length_app, (IH (length grid)) by done. lia.
Qed.

Lemma download_in_page up opts l data fn mime :
  st_download_button l data fn mime ∈ page up opts →
  ∃ sbox, stored up = Some sbox
          ∧ (run_metrics (selected opts) sbox).2 = None
          ∧ st_download_button l data fn mime = download sbox.
Proof.
  unfold page, stored. destruct up as [f|].
  2: { rewrite list_elem_of_singleton. discriminate. }
  destruct (parse f) as [[raw|e]|].
  2,3: rewrite list_elem_of_singleton; discriminate.
  destruct (run_metrics _ _) as [[cs us] e] eqn:Hrun.
  rewrite !elem_of_app, !elem_of_cons.
  intros [Hin|[[Hin|[Hin|[Hin|Hin]]]|[Hin|[Hin|Hin]]]]; try discriminate Hin.
  - apply size_warning_cases in Hin as [? Hin]. discriminate Hin.
  - by apply elem_of_nil in Hin.
  - pose proof (run_metrics_shown (selected opts) (adjust raw)
                  (st_download_button l data fn mime)) as Hs.
    rewrite Hrun in Hs. destruct (Hs Hin) as (m & v & _ & _ & ?). done.
  - destruct e as [e|]; [discriminate Hin|].
    exists (adjust raw). by rewrite Hrun.
  - by apply elem_of_nil in Hin.
Qed.

End RunFacts.

Section RunProperties.
Import Py App Reruns.
Context `{Pandas} `{Utils}.

(** X1. When no table is parsed (no upload, a rejected file type, or a
    reader that raises) the run calls no analysis, shows the header and one
    message, and leaves a previously stored S-box in place. *)
Theorem unparsed_upload_keeps_session up opts ss :
  (∀ f raw, up = Some f → parse f ≠ Some (Ok raw)) →
  let r := main up opts (start ss) in
  session_state r.2 = init_session ss
  ∧ (∀ v, ss !! "sbox" = Some v → session_state r.2 = ss)
  ∧ calls r.2 = []
  ∧ ∃ msg, ui r.2 = header ++ [msg]
      ∧ ((up = None ∧ msg = st_info "Please upload an S-box file to continue.")
         ∨ (up ≠ None ∧ ∃ b, msg = st_error b)).
Proof.
  intros Hno r. subst r. rewrite main_spec.
  unfold called. rewrite (stored_unparsed up Hno).
  cbn [snd session_state ui calls start store app].
  split_and!; [done| |done|].
  - intros v Hv. unfold init_session.
    rewrite bool_decide_false; [done|congruence].
  - unfold page. destruct up as [f|]; [|eauto].
    destruct (parse f) as [[raw|e]|] eqn:Hp.
    + by destruct (Hno f raw).
    + eexists. split; [done|]. right. split; [done|]. unfold reported. eauto.
    + eexists. split; [done|]. right. split; [done|]. eauto.
Qed.

(** X3. The page a run renders, the calls it makes and its outcome do not
    depend on the session state it starts from. *)
Theorem page_independent_of_session up opts ss ss' :
  let r := main up opts (start ss) in
  let r' := main up opts (start ss') in
  r.1 = r'.1 ∧ ui r.2 = ui r'.2 ∧ calls r.2 = calls r'.2.
Proof. intros r r'. subst r r'. by rewrite !main_spec. Qed.

Lemma rerun_well_formed ss input :
  sbox_well_formed ss →
  sbox_well_formed (rerun ss input) ∧ is_Some (rerun ss input !! "sbox").
Proof.
  intros Hss. unfold rerun. rewrite main_spec.
  cbn [snd session_state start]. unfold sbox_well_formed in *.
  destruct (stored input.1) as [sbox|] eqn:Hst; cbn [store].
  - rewrite lookup_insert_eq. split; [|eauto].
    unfold stored in Hst. destruct input.1 as [f|]; [|done].
    destruct (parse f) as [[raw|e]|]; [|done..].
    injection Hst as <-. apply length_adjust.
  - unfold init_session. case_bool_decide as Hs.
    + rewrite lookup_insert_eq. eauto.
    + split; [done|]. by destruct (ss !! "sbox"); eauto.
Qed.

(** X4. Over any sequence of runs from an empty session state, what the
    key ["sbox"] holds is [None] or a list of exactly 256 entries, and the
    key is set from the first run on. *)
Theorem stored_sbox_invariant inputs :
  sbox_well_formed (reruns inputs ∅)
  ∧ (inputs ≠ [] → is_Some (reruns inputs ∅ !! "sbox")).
Proof.
  unfold reruns. induction inputs as [|input inputs IH] using rev_ind.
  - split; [done|]. by intros [].
  - rewrite foldl_app. cbn [foldl]. destruct IH as [IH _].
    destruct (rerun_well_formed (foldl rerun ∅ inputs) input IH) as [Hw Hs].
    split; [done|]. by intros _.
Qed.

(** X5. A run depends on the selection only through which of the six labels
    it contains: order, repetitions and other strings make no difference. *)
Theorem selection_is_a_set up opts opts' w :
  (∀ l, l ∈ metric_labels → (l ∈ opts ↔ l ∈ opts')) →
  main up opts w = main up opts' w.
Proof.
  intros Hl. rewrite !main_spec. unfold page, called.
  by rewrite (selected_agree opts opts' Hl).
Qed.

(** X6. The first selected analysis that raises ends the evaluation: the
    analyses before it are called and shown, it is the last one called, the
    page ends with its error and offers no download; the S-box stays
    stored. *)
Theorem first_failure_stops_evaluation f opts ss raw pre m post e :
  parse f = Some (Ok raw) →
  selected opts = pre ++ m :: post →
  (∀ m', m' ∈ pre → is_ok (m_run m' (adjust raw)) = true) →
  m_run m (adjust raw) = Raise e →
  let w := (main (Some f) opts (start ss)).2 in
  calls w = (λ m', (m_name m', adjust raw)) <$> (pre ++ [m])
  ∧ Forall2 (λ m' lv, lv.1 = m_label m' ∧ m_run m' (adjust raw) = Ok lv.2)
      pre (shown_metrics (ui w))
  ∧ last (ui w) = Some (reported e)
  ∧ (∀ l data fn mime, st_download_button l data fn mime ∉ ui w)
  ∧ session_state w !! "sbox" = Some (PyList (adjust raw)).
Proof.
  intros Hp Hsel Hpre Hm w.
  destruct (run_metrics_stops pre m post (adjust raw) e Hpre Hm)
    as (us & Hrun & Hus).
  assert (∀ l data fn mime, st_download_button l data fn mime ∉ ui w) as Hnd.
  { intros l data fn mime Hin. subst w. rewrite main_spec in Hin.
    cbn [snd ui start app] in Hin. apply elem_of_app in Hin as [Hin|Hin].
    - apply header_cases in Hin.
      destruct Hin as [[? Hin]|[[? Hin]|[(? & ? & Hin)|(? & ? & ? & ? & Hin)]]];
        discriminate Hin.
    - apply download_in_page in Hin as (sbox & Hst & Hnone & _).
      rewrite (stored_parsed f raw Hp) in Hst. injection Hst as <-.
      rewrite Hsel, Hrun in Hnone. discriminate Hnone. }
  subst w. rewrite (main_parsed f opts ss raw Hp) in *.
  rewrite Hsel, Hrun in *. cbn [fst snd session_state ui calls] in *.
  split_and!; [done| |by rewrite !app_assoc, last_snoc|done|
               by rewrite lookup_insert_eq].
  rewrite !shown_metrics_app, shown_metrics_size_warning.
  change (shown_metrics header) with (@nil (string * string)).
  cbn. by rewrite app_nil_r.
Qed.

(** X7. The download button is offered exactly when a table is parsed and
    every selected analysis returns on it. *)
Theorem download_offered_iff up opts ss :
  (∃ l data fn mime,
     st_download_button l data fn mime ∈ ui (main up opts (start ss)).2)
  ↔ ∃ f raw, up = Some f ∧ parse f = Some (Ok raw)
      ∧ ∀ m, m ∈ selected opts → is_ok (m_run m (adjust raw)) = true.
Proof.
  split.
  - intros (l & data & fn & mime & Hin). rewrite main_spec in Hin.
    cbn [snd ui start app] in Hin. apply elem_of_app in Hin as [Hin|Hin].
    { apply header_cases in Hin.
      destruct Hin as [[? Hin]|[[? Hin]|[(? & ? & Hin)|(? & ? & ? & ? & Hin)]]];
        discriminate Hin. }
    apply download_in_page in Hin as (sbox & Hst & Hnone & _).
    unfold stored in Hst. destruct up as [f|]; [|done].
    destruct (parse f) as [[raw|e]|] eqn:Hp; [|done..].
    injection Hst as <-. exists f, raw. split_and!; [done..|].
    by apply run_metrics_returns.
  - intros (f & raw & -> & Hp & Hok).
    apply run_metrics_returns in Hok.
    eexists _, _, _, _. rewrite (main_parsed f opts ss raw Hp).
    cbn [snd ui]. rewrite Hok. rewrite !elem_of_app. do 4 right. left.
Qed.

(** X8. A parsed upload draws a size warning exactly when it does not have
    256 entries, and the warning names the number of entries uploaded and
    whether the table was padded or truncated. *)
Theorem size_warning_iff_resized f opts ss raw :
  parse f = Some (Ok raw) →
  warnings (ui (main (Some f) opts (start ss)).2)
  = if decide (length raw = 256%nat) then []
    else ["S-box size is " +:+ pretty (length raw)
          +:+ (if decide (length raw < 256)%nat
               then ". Padding to 256 elements."
               else ". Truncating to 256 elements.")].
Proof.
  intros Hp. rewrite (warnings_parsed f opts ss raw Hp).
  unfold size_warning. repeat case_decide; (done || lia).
Qed.

(** X9. Uploading the exported sheet again stores the same S-box and draws
    no size warning. *)
Theorem exported_sheet_reimports f f' opts opts' ss ss' raw l data fn mime :
  parse f = Some (Ok raw) →
  st_download_button l data fn mime ∈ ui (main (Some f) opts (start ss)).2 →
  parse f' = Some (Ok (concat data)) →
  session_state (main (Some f') opts' (start ss')).2 !! "sbox"
  = session_state (main (Some f) opts (start ss)).2 !! "sbox"
  ∧ warnings (ui (main (Some f') opts' (start ss')).2) = [].
Proof.
  intros Hp Hin Hp'.
  assert (concat data = adjust raw) as Hdata.
  { rewrite main_spec in Hin. cbn [snd ui start app] in Hin.
    apply elem_of_app in Hin as [Hin|Hin].
    { apply header_cases in Hin.
      destruct Hin as [[? Hin]|[[? Hin]|[(? & ? & Hin)|(? & ? & ? & ? & Hin)]]];
        discriminate Hin. }
    apply download_in_page in Hin as (sbox & Hst & _ & Hd).
    rewrite (stored_parsed f raw Hp) in Hst. injection Hst as <-.
    assert (data = DataFrame_of_list (adjust raw)) as ->
      by (unfold download in Hd; congruence).
    apply concat_DataFrame_of_list. }
  rewrite Hdata in Hp'. split.
  - rewrite (main_parsed f' opts' ss' _ Hp'), (main_parsed f opts ss raw Hp).
    cbn [snd session_state]. rewrite !lookup_insert_eq.
    by rewrite adjust_256 by apply length_adjust.
  - rewrite (warnings_parsed f' opts' ss' _ Hp').
    unfold size_warning. pose proof (length_adjust raw).
    repeat case_decide; (done || lia).
Qed.

(** X10. A table uploaded as 16 rows of 16 entries is stored unchanged and
    shown as the same 16 rows, without a size warning. *)
Theorem square_upload_displayed_as_is f opts ss (grid : list table) :
  length grid = 16%nat → Forall (λ row, length row = 16%nat) grid →
  parse f = Some (Ok (concat grid)) →
  let w := (main (Some f) opts (start ss)).2 in
  st_table grid grid_labels grid_labels ∈ ui w
  ∧ warnings (ui w) = []
  ∧ session_state w !! "sbox" = Some (PyList (concat grid)).
Proof.
  intros Hrows Hcols Hp w.
  pose proof (length_concat_grid grid 16 16 Hrows Hcols) as Hlen.
  pose proof (adjust_256 (concat grid) Hlen) as Hadj.
  split_and!.
  - subst w. rewrite (main_parsed f opts ss _ Hp). cbn [snd ui].
    rewrite Hadj, (chunks_concat grid 16 16 Hrows Hcols).
    rewrite !elem_of_app, !elem_of_cons. auto 7.
  - subst w. rewrite (warnings_parsed f opts ss _ Hp).
    unfold size_warning. repeat case_decide; (done || lia).
  - subst w. rewrite (main_parsed f opts ss _ Hp). cbn [snd session_state].
    by rewrite lookup_insert_eq, Hadj.
Qed.

(** X11. [main] checks no entry itself: with none of the six analyses
    selected, any parsed table, whatever its entries, is stored and offered
    for download, no analysis is called and no error is shown. *)
Theorem nothing_selected_nothing_checked f opts ss raw :
  parse f = Some (Ok raw) →
  (∀ l, l ∈ metric_labels → l ∉ opts) →
  let r := main (Some f) opts (start ss) in
  calls r.2 = []
  ∧ shown_metrics (ui r.2) = []
  ∧ (∀ b, st_error b ∉ ui r.2)
  ∧ last (ui r.2) = Some (download (adjust raw))
  ∧ session_state r.2 !! "sbox" = Some (PyList (adjust raw)).
Proof.
  intros Hp Hnone r. subst r.
  rewrite (main_parsed f opts ss raw Hp), (selected_none opts Hnone).
  cbn [run_metrics fst snd session_state ui calls].
  split_and!; [done| | |by rewrite !app_assoc, last_snoc|
               by rewrite lookup_insert_eq].
  - rewrite !shown_metrics_app, shown_metrics_size_warning. done.
  - intros b. rewrite !elem_of_app, !elem_of_cons.
    intros [Hin|[Hin|[[Hin|[Hin|[Hin|Hin]]]|[Hin|[Hin|Hin]]]]];
      try discriminate Hin; try (by apply elem_of_nil in Hin).
    + apply header_cases in Hin.
      destruct Hin as [[? Hin]|[[? Hin]|[(? & ? & Hin)|(? & ? & ? & ? & Hin)]]];
        discriminate Hin.
    + apply size_warning_cases in Hin as [? Hin]. discriminate Hin.
Qed.

End RunProperties.

(** ** The choice of reader *)
Section Dispatch.
Import Py App.
Context `{Pandas}.

Lemma substring_whole s : String.substring 0 (String.length s) s = s.
Proof. induction s as [|c s IH]; [done|]. cbn. by rewrite IH. Qed.

Lemma substring_skip p s k m :
  String.substring (String.length p + k) m (p +:+ s) = String.substring k m s.
Proof. induction p as [|c p IH]; [done|]. cbn. apply IH. Qed.

Lemma substring_split s k :
  (k ≤ String.length s)%nat →
  s = String.substring 0 k s +:+ String.substring k (String.length s - k) s.
Proof.
  revert k. induction s as [|c s IH]; intros k Hk.
  - cbn in Hk. by replace k with 0%nat by lia.
  - destruct k as [|k].
    + rewrite Nat.sub_0_r, substring_whole. reflexivity.
    + cbn [String.substring String.length]. cbn in Hk.
      change (String c (String.substring 0 k s)
              +:+ String.substring k (Datatypes.S (String.length s) - Datatypes.S k) s)
        with (String c (String.substring 0 k s
              +:+ String.substring k (String.length s - k) s)).
      by rewrite <- IH by lia.
Qed.

Lemma endswith_spec s suffix :
  endswith s suffix = true ↔ ∃ p, s = p +:+ suffix.
Proof.
  unfold endswith. rewrite andb_true_iff, !bool_decide_eq_true. split.
  - set (m := String.length suffix). intros [Hle Hsub].
    exists (String.substring 0 (String.length s - m) s).
    pose proof (substring_split s (String.length s - m) ltac:(lia)) as Hs.
    replace (String.length s - (String.length s - m))%nat with m in Hs by lia.
    by rewrite Hsub in Hs.
  - intros [p ->]. rewrite length_string_app. split; [lia|].
    replace (String.length p + String.length suffix - String.length suffix)%nat
      with (String.length p + 0)%nat by lia.
    rewrite substring_skip. apply substring_whole.
Qed.

Lemma endswith_other p suffix other k :
  String.length suffix = (k + String.length other)%nat →
  String.substring k (String.length other) suffix ≠ other →
  endswith (p +:+ suffix) other = false.
Proof.
  intros Hlen Hne. unfold endswith. rewrite length_string_app, Hlen.
  apply andb_false_iff. right. apply bool_decide_eq_false.
  replace (String.length p + (k + String.length other) - String.length other)%nat
    with (String.length p + k)%nat by lia.
  by rewrite substring_skip.
Qed.

Lemma parse_by_suffix f :
  ((∃ stem, name f = stem +:+ ".csv") →
   parse f = Some (match read_csv f with
                   | Ok df => flatten_astype_int_tolist df
                   | Raise e => Raise e
                   end))
  ∧ ((∃ stem, name f = stem +:+ ".xls" ∨ name f = stem +:+ ".xlsx") →
     parse f = Some (match read_excel f with
                     | Ok df => flatten_astype_int_tolist df
                     | Raise e => Raise e
                     end))
  ∧ (parse f = None ↔
     ∀ stem, name f ≠ stem +:+ ".csv" ∧ name f ≠ stem +:+ ".xls"
             ∧ name f ≠ stem +:+ ".xlsx").
Proof.
  unfold parse. split_and!.
  - intros Hcsv. apply endswith_spec in Hcsv. by rewrite Hcsv.
  - intros [stem Hx].
    assert (endswith (name f) ".csv" = false) as ->.
    { destruct Hx as [->| ->].
      - by apply (endswith_other stem ".xls" ".csv" 0).
      - by apply (endswith_other stem ".xlsx" ".csv" 1). }
    assert (endswith (name f) ".xls" || endswith (name f) ".xlsx" = true) as ->;
      [|done].
    apply orb_true_iff.
    destruct Hx as [Hx|Hx]; [left|right]; apply endswith_spec; eauto.
  - destruct (endswith (name f) ".csv") eqn:Hcsv.
    { split; [done|]. intros Hno. apply endswith_spec in Hcsv as [p Hp].
      by destruct (Hno p) as [? _]. }
    destruct (endswith (name f) ".xls") eqn:Hxls.
    { split; [done|]. intros Hno. apply endswith_spec in Hxls as [p Hp].
      by destruct (Hno p) as (_ & ? & _). }
    destruct (endswith (name f) ".xlsx") eqn:Hxlsx.
    { split; [done|]. intros Hno. apply endswith_spec in Hxlsx as [p Hp].
      by destruct (Hno p) as (_ & _ & ?). }
    split; [|done]. intros _ stem. split_and!; intros Hn.
    + assert (endswith (name f) ".csv" = true); [|congruence].
      apply endswith_spec. eauto.
    + assert (endswith (name f) ".xls" = true); [|congruence].
      apply endswith_spec. eauto.
    + assert (endswith (name f) ".xlsx" = true); [|congruence].
      apply endswith_spec. eauto.
Qed.
End Dispatch.

Section DispatchInMain.
Import Py App Reruns.
Context `{Pandas} `{Utils}.

Lemma landed_parsed f opts ss r :
  parse f = Some r → landed r (main (Some f) opts (start ss)).2.
Proof.
  intros Hp. destruct r as [raw|e]; unfold landed.
  - rewrite (main_parsed f opts ss raw Hp). cbn [snd session_state ui].
    split; [apply lookup_insert_eq|].
    rewrite !elem_of_app, !elem_of_cons. auto 7.
  - rewrite main_spec. unfold page, called, stored. rewrite Hp.
    by cbn [snd ui calls start app].
Qed.

Lemma last_page_parsed f opts r :
  parse f = Some r →
  last (header ++ page (Some f) opts)
  ≠ Some (st_error "Invalid file type. Please upload a CSV or Excel file.").
Proof.
  intros Hp. unfold page. rewrite Hp. destruct r as [raw|e].
  - destruct (run_metrics _ _) as [[cs us] oe].
    rewrite !app_assoc, last_snoc. by destruct oe.
  - rewrite last_snoc. unfold reported. intros [=].
Qed.

(** X12. The reader is chosen by the suffix of the file name alone: for a
    name ending in [.csv] the run works on what [read_csv] yields, for a
    name ending in [.xls] or [.xlsx] on what [read_excel] yields, and the
    page ends with the invalid-type error exactly when the name ends in
    none of the three. *)
Theorem reader_chosen_by_suffix f opts ss :
  let w := (main (Some f) opts (start ss)).2 in
  ((∃ stem, name f = stem +:+ ".csv") → landed (read_table read_csv f) w)
  ∧ ((∃ stem, name f = stem +:+ ".xls" ∨ name f = stem +:+ ".xlsx") →
     landed (read_table read_excel f) w)
  ∧ (last (ui w)
     = Some (st_error "Invalid file type. Please upload a CSV or Excel file.")
     ↔ ∀ stem, name f ≠ stem +:+ ".csv" ∧ name f ≠ stem +:+ ".xls"
               ∧ name f ≠ stem +:+ ".xlsx").
Proof.
  intros w. destruct (parse_by_suffix f) as (Hcsv & Hxl & Hnone).
  split_and!.
  - intros Hs. by apply landed_parsed, Hcsv.
  - intros Hs. by apply landed_parsed, Hxl.
  - rewrite <- Hnone. subst w. rewrite main_spec. cbn [snd ui start app].
    destruct (parse f) as [r|] eqn:Hp.
    + split; [|done]. intros Hlast.
      by destruct (last_page_parsed f opts r Hp).
    + split; [done|]. intros _. unfold page. rewrite Hp. by rewrite last_snoc.
Qed.
End DispatchInMain.

(** ** The further properties at sample uploads *)
Section RunWitnesses.
Import Py App Sample Reruns.

Lemma unparsed_upload_keeps_session_witness :
  session_state (@main (reads_as (Ok short_table)) engine (Some txt_file)
                   [LAP_label] (start visited)).2 = visited.
Proof.
  destruct (@unparsed_upload_keeps_session (reads_as (Ok short_table)) engine
              (Some txt_file) [LAP_label] visited) as (_ & Hkeep & _).
  - intros f raw Hf. injection Hf as <-. vm_compute. discriminate.
  - apply (Hkeep PyNone). reflexivity.
Defined.

Lemma selection_is_a_set_witness :
  @main (reads_as (Ok short_table)) second_raises (Some csv_file)
    untidy_selection (start ∅)
  = @main (reads_as (Ok short_table)) second_raises (Some csv_file)
      [LAP_label; NL_label] (start ∅).
Proof.
  apply (@selection_is_a_set (reads_as (Ok short_table)) second_raises).
  intros l Hl. unfold metric_labels in Hl.
  unfold untidy_selection, LAP_label, NL_label, SAC_label, DAP_label,
    BIC_SAC_label, BIC_NL_label in *.
  rewrite !elem_of_cons, !elem_of_nil in *.
  destruct Hl as [->|[->|[->|[->|[->|[->|[]]]]]]];
    split; intros Hin; intuition discriminate.
Defined.

Lemma first_failure_stops_evaluation_witness :
  calls (@main (reads_as (Ok short_table)) second_raises (Some csv_file)
           metric_labels (start ∅)).2
  = [("linear_approximation_probability", adjust short_table);
     ("compute_nonlinearity", adjust short_table)].
Proof.
  destruct (@first_failure_stops_evaluation (reads_as (Ok short_table))
              second_raises csv_file metric_labels ∅ short_table
              [Metric LAP_label "linear_approximation_probability"
                 (shown (format_fixed 6) (@linear_approximation_probability second_raises))]
              (Metric NL_label "compute_nonlinearity"
                 (shown str_int (@compute_nonlinearity second_raises)))
              [Metric SAC_label "strict_avalanche_criterion"
                 (shown (format_fixed 10) (@strict_avalanche_criterion second_raises));
               Metric DAP_label "calculate_dap"
                 (shown (format_fixed 10) (@calculate_dap second_raises));
               Metric BIC_SAC_label "calculate_bic_sac"
                 (shown (format_fixed 10) (@calculate_bic_sac second_raises));
               Metric BIC_NL_label "calculate_bic_nl"
                 (shown str_int (@calculate_bic_nl second_raises))]
              (Exception "ZeroDivisionError" "division by zero"))
    as (Hcalls & _); [reflexivity|reflexivity| |reflexivity|exact Hcalls].
  intros m' Hm'. apply list_elem_of_singleton in Hm'. subst m'. reflexivity.
Defined.

Lemma size_warning_iff_resized_witness :
  warnings (ui (@main (reads_as (Ok short_table)) engine (Some csv_file)
                  [] (start ∅)).2)
  = ["S-box size is 3. Padding to 256 elements."].
Proof.
  rewrite (@size_warning_iff_resized (reads_as (Ok short_table)) engine
             csv_file [] ∅ short_table) by reflexivity.
  reflexivity.
Defined.

Lemma exported_sheet_reimports_witness :
  session_state (@main (reads_by by_name) engine (Some xlsx_file)
                   [] (start ∅)).2 !! "sbox"
  = session_state (@main (reads_by by_name) engine (Some csv_file)
                     [] (start visited)).2 !! "sbox".
Proof.
  destruct (@exported_sheet_reimports (reads_by by_name) engine
              csv_file xlsx_file [] [] visited ∅ short_table
              "Download S-box as Excel" (DataFrame_of_list (adjust short_table))
              "sbox_data.xlsx"
              "application/vnd.openxmlformats-officedocument.spreadsheetml.sheet")
    as [Hsame _]; [reflexivity| |vm_compute; reflexivity|exact Hsame].
  vm_compute. repeat constructor.
Defined.

Lemma square_upload_displayed_as_is_witness :
  st_table (chunks 16 16 Engine.identity_table) grid_labels grid_labels
  ∈ ui (@main (reads_as (Ok Engine.identity_table)) engine (Some csv_file)
          [] (start ∅)).2.
Proof.
  destruct (@square_upload_displayed_as_is (reads_as (Ok Engine.identity_table))
              engine csv_file [] ∅ (chunks 16 16 Engine.identity_table))
    as [Hshown _]; [reflexivity| |vm_compute; reflexivity|exact Hshown].
  apply chunks_rows. reflexivity.
Defined.

Lemma nothing_selected_nothing_checked_witness :
  last (ui (@main (reads_as (Ok bad_table)) engine (Some csv_file)
              ["Entropy"] (start ∅)).2)
  = Some (@download (adjust bad_table)).
Proof.
  destruct (@nothing_selected_nothing_checked (reads_as (Ok bad_table)) engine
              csv_file ["Entropy"] ∅ bad_table)
    as (_ & _ & _ & Hlast & _); [reflexivity| |exact Hlast].
  intros l Hl Hin. apply list_elem_of_singleton in Hin. subst l.
  unfold metric_labels, LAP_label, NL_label, SAC_label, DAP_label,
    BIC_SAC_label, BIC_NL_label in Hl.
  rewrite !elem_of_cons, !elem_of_nil in Hl. intuition discriminate.
Defined.

Lemma reader_chosen_by_suffix_witness :
  session_state (@main two_readers engine (Some csv_file) [] (start ∅)).2
    !! "sbox" = Some (PyList (adjust short_table))
  ∧ session_state (@main two_readers engine (Some xlsx_file) [] (start ∅)).2
      !! "sbox" = Some (PyList (adjust long_table)).
Proof.
  split.
  - destruct (@reader_chosen_by_suffix two_readers engine csv_file [] ∅)
      as (Hcsv & _).
    destruct Hcsv as [Hst _]; [exists "sbox"; reflexivity|exact Hst].
  - destruct (@reader_chosen_by_suffix two_readers engine xlsx_file [] ∅)
      as (_ & Hxl & _).
    destruct Hxl as [Hst _]; [exists "sbox_data"; right; reflexivity|exact Hst].
Defined.
End RunWitnesses.
